(** * Ledger and balance consistency of the bank backend

    A shallow embedding of the money-movement code of the backend
    (controllers/transactionController.mjs, controllers/accountController.mjs,
    controllers/authController.mjs, middleware/auth.mjs, the routers and
    utils/helpers.mjs) and the properties of its ledger that hold, or fail,
    on that code.

    Modelling conventions.
    - Money is an exact count of minor units (cents): the store keeps
      DECIMAL(15,2) columns, so [units 500] is 500.00, and what a column
      keeps of a number with at most two decimals is that number.  Numbers
      with more decimals are outside the model.
    - The amount of a request body reaches a handler as the client sent it,
      a number or a string.  The handlers are given first on the bodies
      whose amount is a number ([body]); module [Untyped] gives them on
      both kinds of amount, and the two agree on numbers
      ([createTransaction_agrees], [transfer_agrees], [run_agrees]).
    - The [new_balance] of a success answer is the unrounded result of the
      handler's arithmetic on doubles; it is the number given here when
      balance and amount are whole numbers.
    - The hosted store is a value of type [db]; every query is one call that
      either takes effect as a whole or fails without effect.  The client
      resolves each query to a [{data, error}] pair, modelled by [result];
      which calls fail is decided by a fault schedule carried in the [world].
    - A handler is a computation in the [Store] monad: it threads the world
      and emits the trace of the store calls it issued together with their
      replies.
    - [Date.now()], [Math.random()] and the bcrypt digest are inputs of a
      request, collected in [env].
    - Columns that no handler below reads back (timestamps) are omitted. *)

From stdpp Require Import gmap strings list fin_maps.
From Stdlib Require Import ZArith NArith String Ascii Lia DecimalString.

Local Open Scope string_scope.
Local Open Scope list_scope.
Local Open Scope Z_scope.

(** ** Money *)

Definition units (n : Z) : Z := n * 100.

(** ** JavaScript values used by the handlers *)

Module Js.

(** Truthiness of an optional string: [undefined] and [""] are falsy. *)
Definition truthy (o : option string) : bool :=
  match o with
  | Some s => negb (String.eqb s "")
  | None => false
  end.

(** [a || d] on an optional string [a] and a string [d]. *)
Definition or_else (o : option string) (d : string) : string :=
  match o with
  | Some s => if String.eqb s "" then d else s
  | None => d
  end.

(** Interpolation of an optional string inside a template literal. *)
Definition show (o : option string) : string :=
  match o with
  | Some s => s
  | None => "undefined"
  end.

(** [xs.includes(x)] for an array of strings and a possibly undefined [x]. *)
Definition includes (xs : list string) (x : option string) : bool :=
  match x with
  | Some s => existsb (String.eqb s) xs
  | None => false
  end.

Definition upper_ascii (c : ascii) : ascii :=
  let n := N_of_ascii c in
  if ((97 <=? n) && (n <=? 122))%N then ascii_of_N (n - 32) else c.

(** [s.toUpperCase()] on ASCII text. *)
Fixpoint toUpperCase (s : string) : string :=
  match s with
  | EmptyString => EmptyString
  | String c r => String (upper_ascii c) (toUpperCase r)
  end.

Definition digit36 (d : N) : ascii :=
  if (d <? 10)%N then ascii_of_N (48 + d) else ascii_of_N (87 + d).

Fixpoint toString36_loop (fuel : nat) (n : N) (acc : string) : string :=
  match fuel with
  | O => acc
  | S fuel' =>
      let acc' := String (digit36 (n mod 36)) acc in
      if (n / 36 =? 0)%N then acc' else toString36_loop fuel' (n / 36) acc'
  end.

(** [n.toString(36)] for a non-negative integer [n]; a number of [k] bits
    has at most [k] digits, which bounds the loop. *)
Definition toString36 (n : N) : string :=
  toString36_loop (S (N.to_nat (N.log2 n))) n EmptyString.

(** [s.slice(-k)]: the last [k] characters. *)
Definition slice_last (k : nat) (s : string) : string :=
  substring (String.length s - k)%nat k s.

End Js.

(** ** utils/helpers.mjs *)

(** [calculateNewBalance] on numbers; [Untyped.calculateNewBalance] is the
    function on an amount of either kind. *)
Definition calculateNewBalance (currentBalance amount : Z) (type : string) : Z :=
  if String.eqb type "credit" then currentBalance + amount
  else if String.eqb type "debit" then currentBalance - amount
  else currentBalance.

(** [generateReference(type)], with the two ambient reads made explicit:
    [now] is [Date.now()] and [random36] is [Math.random().toString(36)]. *)
Definition generateReference (type : string) (now : N) (random36 : string) : string :=
  let prefix := substring 0 3 (Js.toUpperCase type) in
  let timestamp := Js.toString36 now in
  let random := substring 2 6 random36 in
  Js.toUpperCase (prefix +:+ "-" +:+ timestamp +:+ "-" +:+ random).

(** [generateAccountNumber()], [random10] being [Math.random().toString()]. *)
Definition generateAccountNumber (random10 : string) : string :=
  "RS" +:+ substring 2 10 random10.


(** ** The store *)

(** A row of [profiles] without its primary key. *)
Record profile_cols := {
  name : string;
  email : string;
  password_hash : string;
  account_number : string;
  balance : Z;
  is_active : bool
}.

(** A row of [profiles] as a query returns it. *)
Record profile := { pid : nat; pcols :> profile_cols }.

(** A row of [transactions] without its primary key. *)
Record transaction_cols := {
  user_id : nat;
  type : string;
  amount : Z;
  description : option string;
  to_account_number : option string;
  transaction_type : option string;
  reference : option string;
  status : string
}.

Record transaction := { tid : nat; tcols :> transaction_cols }.

(** [profiles] is keyed by its primary key; [transactions] is kept in
    insertion order. *)
Record db := {
  profiles : gmap nat profile_cols;
  transactions : list transaction
}.

Inductive outcome :=
| Done
| Failed (message : string).

Record world := { store : db; faults : list outcome }.

Inductive result (A : Type) :=
| Data (data : A)
| Error (message : string).
Arguments Data {A} data.
Arguments Error {A} message.

Inductive call :=
| SelectProfileById (id : nat)
| SelectProfileByNumber (number : option string)
| SelectProfileByEmail (address : string)
| InsertProfile (cols : profile_cols)
| UpdateBalance (id : nat) (new_balance : Z)
| UpdateActive (id : nat) (flag : bool)
| UpdateActivation (id : nat) (number : string) (new_balance : Z)
| InsertTransaction (cols : transaction_cols)
| DeleteTransaction (id : nat).

Inductive reply :=
| Profile (p : profile)
| Transaction (t : transaction)
| NoContent
| StoreError (message : string).

Record event := { ev_call : call; ev_reply : reply }.

Definition ok (e : event) : bool :=
  match ev_reply e with
  | StoreError _ => false
  | _ => true
  end.

Definition is_write (e : event) : bool :=
  match ev_call e with
  | SelectProfileById _ | SelectProfileByNumber _ | SelectProfileByEmail _ => false
  | _ => true
  end.

(** *** The monad of handlers *)

Definition Store (A : Type) : Type := world → A * world * list event.

Definition ret {A} (a : A) : Store A := λ w, (a, w, []).

Definition bind {A B} (m : Store A) (k : A → Store B) : Store B :=
  λ w, let '(a, w1, l1) := m w in
       let '(b, w2, l2) := k a w1 in
       (b, w2, l1 ++ l2).

Notation "'let*' x ':=' m 'in' k" := (bind m (λ x, k))
  (at level 10, x name, m at level 100, k at level 200).

Definition set_store (w : world) (d : db) : world :=
  {| store := d; faults := faults w |}.

Definition next_fault (w : world) : outcome * world :=
  (hd Done (faults w), {| store := store w; faults := tl (faults w) |}).

(** One store call: the schedule decides whether the call reaches the
    store; when it does, [run] is its effect and its answer. *)
Definition query {A} (c : call) (run : db → result A * db) (shown : A → reply)
  : Store (result A) :=
  λ w, let '(o, w1) := next_fault w in
       match o with
       | Failed msg => (Error msg, w1, [{| ev_call := c; ev_reply := StoreError msg |}])
       | Done =>
           let '(r, d) := run (store w1) in
           (r, set_store w1 d,
            [{| ev_call := c;
                ev_reply := match r with
                            | Data a => shown a
                            | Error msg => StoreError msg
                            end |}])
       end.

Definition no_rows : string := "JSON object requested, multiple (or no) rows returned".

(** [.single()]: exactly one row, or an error. *)
Definition single (rows : list (nat * profile_cols)) : result profile :=
  match rows with
  | [(k, c)] => Data {| pid := k; pcols := c |}
  | _ => Error no_rows
  end.

Definition select_profile_by_id (id : nat) : Store (result profile) :=
  query (SelectProfileById id)
    (λ d, (match profiles d !! id with
           | Some c => Data {| pid := id; pcols := c |}
           | None => Error no_rows
           end, d))
    Profile.

Definition select_profile_by_number (number : option string) : Store (result profile) :=
  query (SelectProfileByNumber number)
    (λ d, (single (map_to_list (filter (λ kc, Some (account_number kc.2) = number) (profiles d))), d))
    Profile.

Definition select_profile_by_email (address : string) : Store (result profile) :=
  query (SelectProfileByEmail address)
    (λ d, (single (map_to_list (filter (λ kc, email kc.2 = address) (profiles d))), d))
    Profile.

Definition insert_profile (cols : profile_cols) : Store (result profile) :=
  query (InsertProfile cols)
    (λ d, let k := fresh (dom (profiles d)) in
          (Data {| pid := k; pcols := cols |},
           {| profiles := <[k := cols]> (profiles d); transactions := transactions d |}))
    Profile.

Definition set_balance (b : Z) (c : profile_cols) : profile_cols :=
  {| name := name c; email := email c; password_hash := password_hash c;
     account_number := account_number c; balance := b; is_active := is_active c |}.

Definition set_active (f : bool) (c : profile_cols) : profile_cols :=
  {| name := name c; email := email c; password_hash := password_hash c;
     account_number := account_number c; balance := balance c; is_active := f |}.

Definition set_number (n : string) (c : profile_cols) : profile_cols :=
  {| name := name c; email := email c; password_hash := password_hash c;
     account_number := n; balance := balance c; is_active := is_active c |}.

Definition alter_profile (f : profile_cols → profile_cols) (id : nat) (d : db) : db :=
  {| profiles := alter f id (profiles d); transactions := transactions d |}.

(** [update({balance}).eq('id', id)]: no row matching is not an error. *)
Definition update_balance (id : nat) (b : Z) : Store (result unit) :=
  query (UpdateBalance id b)
    (λ d, (Data (), alter_profile (set_balance b) id d))
    (λ _, NoContent).

(** An update followed by [.select().single()]. *)
Definition update_returning (c : call) (f : profile_cols → profile_cols) (id : nat)
  : Store (result profile) :=
  query c
    (λ d, match profiles d !! id with
          | Some c => (Data {| pid := id; pcols := f c |}, alter_profile f id d)
          | None => (Error no_rows, d)
          end)
    Profile.

Definition next_tid (ts : list transaction) : nat := S (max_list (tid <$> ts)).

Definition insert_transaction (cols : transaction_cols) : Store (result transaction) :=
  query (InsertTransaction cols)
    (λ d, let t := {| tid := next_tid (transactions d); tcols := cols |} in
          (Data t, {| profiles := profiles d; transactions := transactions d ++ [t] |}))
    Transaction.

Definition delete_transaction (id : nat) : Store (result unit) :=
  query (DeleteTransaction id)
    (λ d, (Data (), {| profiles := profiles d;
                       transactions := filter (λ t, tid t ≠ id) (transactions d) |}))
    (λ _, NoContent).

(** ** utils/constants.mjs *)

Module ERROR_CODES.
Definition INSUFFICIENT_FUNDS : string := "INSUFFICIENT_FUNDS".
Definition ACCOUNT_NOT_FOUND : string := "ACCOUNT_NOT_FOUND".
Definition TRANSACTION_FAILED : string := "TRANSACTION_FAILED".
End ERROR_CODES.

Module ACCOUNT_STATUS.
Definition ACTIVE : bool := true.
Definition INACTIVE : bool := false.
End ACCOUNT_STATUS.

(** ** Requests and responses *)

(** The JSON body of a money-movement request whose amount is a number,
    held in cents; absent fields are [None].  [Untyped.body] is the body
    with an amount of either kind. *)
Record body := {
  b_type : option string;
  b_amount : Z;
  b_description : option string;
  b_to_account_number : option string;
  b_transaction_type : option string
}.

Record signup_body := { s_name : string; s_email : string; s_password : string }.

(** The ambient reads of one request. *)
Record env := {
  now : N;              (* Date.now() *)
  random36 : string;    (* Math.random().toString(36) *)
  random10 : string;    (* Math.random().toString() *)
  digest : string       (* bcrypt.hash(password, 12) *)
}.

Inductive response :=
| Rejected (http : nat) (error : string) (code : option string)
| TransactionCreated (t : transaction) (new_balance : Z)
| TransferCompleted (t : transaction) (new_balance : Z)
| SignedUp (u : profile)
| AccountActivated (u : profile)
| AdminDone (u : profile).

Import ERROR_CODES.

(** ** controllers/transactionController.mjs *)

Definition createTransaction (user : profile) (b : body) (e : env) : Store response :=
  let amount := b_amount b in
  let transaction_type := default "transfer" (b_transaction_type b) in
  if negb (is_active user) then
    ret (Rejected 403 "Account is not active. Please wait for activation to perform transactions."
           (Some "ACCOUNT_INACTIVE"))
  else
  match b_type b with
  | None =>
      (* [type] is undefined, which ['credit', 'debit'] does not include *)
      ret (Rejected 400 "Invalid transaction type" (Some "INVALID_TRANSACTION_TYPE"))
  | Some type =>
  if negb (Js.includes ["credit"; "debit"] (Some type)) then
    ret (Rejected 400 "Invalid transaction type" (Some "INVALID_TRANSACTION_TYPE"))
  else if amount <=? 0 then
    ret (Rejected 400 "Amount must be positive" (Some "INVALID_AMOUNT"))
  else if negb (Js.includes ["transfer"; "withdrawal"; "deposit"; "payment"; "refund"]
                  (Some transaction_type)) then
    ret (Rejected 400 "Invalid transaction type" (Some "INVALID_TRANSACTION_CATEGORY"))
  else
  let* p := select_profile_by_id (pid user) in
  match p with
  | Error _ => ret (Rejected 400 "Failed to fetch account balance" (Some ACCOUNT_NOT_FOUND))
  | Data profile =>
  if String.eqb type "debit" && (balance profile <? amount) then
    ret (Rejected 400 "Insufficient funds" (Some INSUFFICIENT_FUNDS))
  else
  let reference := generateReference transaction_type (now e) (random36 e) in
  let* t := insert_transaction
         {| user_id := pid user; type := type; amount := amount;
            description := b_description b;
            to_account_number := b_to_account_number b;
            transaction_type := Some transaction_type;
            reference := Some reference;
            status := "completed" |} in
  match t with
  | Error message => ret (Rejected 400 message (Some TRANSACTION_FAILED))
  | Data transaction =>
  let newBalance := calculateNewBalance (balance profile) amount type in
  let* u := update_balance (pid user) newBalance in
  match u with
  | Error _ =>
      let* _ := delete_transaction (tid transaction) in
      ret (Rejected 400 "Transaction failed" (Some TRANSACTION_FAILED))
  | Data _ => ret (TransactionCreated transaction newBalance)
  end end end end.

Definition with_fields (b : body) (type transaction_type description : string) : body :=
  {| b_type := Some type; b_amount := b_amount b; b_description := Some description;
     b_to_account_number := b_to_account_number b;
     b_transaction_type := Some transaction_type |}.

Definition createWithdrawal (user : profile) (b : body) (e : env) : Store response :=
  let to_account_number := b_to_account_number b in
  createTransaction user
    (with_fields b "debit" "withdrawal"
       (Js.or_else (b_description b)
          ("Withdrawal" +:+
           (if Js.truthy to_account_number then " to " +:+ Js.show to_account_number else ""))))
    e.

Definition createTransfer (user : profile) (b : body) (e : env) : Store response :=
  let to_account_number := b_to_account_number b in
  if negb (Js.truthy to_account_number) then
    ret (Rejected 400 "Recipient account number is required for transfers"
           (Some "MISSING_RECIPIENT"))
  else
    createTransaction user
      (with_fields b "debit" "transfer"
         (Js.or_else (b_description b) ("Transfer to " +:+ Js.show to_account_number)))
      e.

Definition createDeposit (user : profile) (b : body) (e : env) : Store response :=
  createTransaction user
    (with_fields b "credit" "deposit" (Js.or_else (b_description b) "Deposit")) e.

(** ** controllers/accountController.mjs *)

Definition transfer (user : profile) (b : body) : Store response :=
  let to_account_number := b_to_account_number b in
  let amount := b_amount b in
  let description := b_description b in
  if negb (is_active user) then
    ret (Rejected 403 "Account is not active. Please wait for activation to perform transfers."
           (Some "ACCOUNT_INACTIVE"))
  else if amount <=? 0 then
    ret (Rejected 400 "Amount must be positive" (Some "INVALID_AMOUNT"))
  else
  let* r := select_profile_by_number to_account_number in
  match r with
  | Error _ => ret (Rejected 400 "Recipient account not found" (Some ACCOUNT_NOT_FOUND))
  | Data recipient =>
  if negb (is_active recipient) then
    ret (Rejected 400 "Recipient account is not active" (Some "RECIPIENT_INACTIVE"))
  else if Nat.eqb (pid recipient) (pid user) then
    ret (Rejected 400 "Cannot transfer to your own account" (Some "SELF_TRANSFER"))
  else
  let* s := select_profile_by_id (pid user) in
  match s with
  | Error _ => ret (Rejected 400 "Failed to fetch sender account" (Some ACCOUNT_NOT_FOUND))
  | Data senderProfile =>
  if balance senderProfile <? amount then
    ret (Rejected 400 "Insufficient funds" (Some INSUFFICIENT_FUNDS))
  else
  let* d := insert_transaction
         {| user_id := pid user; type := "debit"; amount := amount;
            description :=
              Some (Js.or_else description ("Transfer to " +:+ Js.show to_account_number));
            to_account_number := to_account_number;
            transaction_type := None; reference := None;
            status := "completed" |} in
  match d with
  | Error _ => ret (Rejected 400 "Failed to create debit transaction" (Some TRANSACTION_FAILED))
  | Data debitTransaction =>
  let* c := insert_transaction
         {| user_id := pid recipient; type := "credit"; amount := amount;
            description :=
              Some (Js.or_else description
                      ("Transfer from " +:+ account_number senderProfile));
            to_account_number := Some (account_number senderProfile);
            transaction_type := None; reference := None;
            status := "completed" |} in
  match c with
  | Error _ =>
      let* _ := delete_transaction (tid debitTransaction) in
      ret (Rejected 400 "Failed to create credit transaction" (Some TRANSACTION_FAILED))
  | Data creditTransaction =>
  let* us := update_balance (pid user) (balance senderProfile - amount) in
  match us with
  | Error _ =>
      let* _ := delete_transaction (tid debitTransaction) in
      let* _ := delete_transaction (tid creditTransaction) in
      ret (Rejected 400 "Failed to update sender balance" (Some TRANSACTION_FAILED))
  | Data _ =>
  let* ur := update_balance (pid recipient) (balance recipient + amount) in
  match ur with
  | Error _ =>
      let* _ := delete_transaction (tid debitTransaction) in
      let* _ := delete_transaction (tid creditTransaction) in
      let* _ := update_balance (pid user) (balance senderProfile) in
      ret (Rejected 400 "Failed to update recipient balance" (Some TRANSACTION_FAILED))
  | Data _ => ret (TransferCompleted debitTransaction (balance senderProfile - amount))
  end end end end end end.

(** ** middleware/auth.mjs *)

(** The bearer token of a request, after [verifyToken]. *)
Inductive credentials :=
| NoToken
| InvalidToken
| Token (userId : nat).

(** A middleware either answers the request or calls [next()] with
    [req.user] set. *)
Definition authenticateToken (c : credentials) : Store (response + profile) :=
  match c with
  | NoToken => ret (inl (Rejected 401 "Access token required" (Some "MISSING_TOKEN")))
  | InvalidToken => ret (inl (Rejected 403 "Invalid or expired token" (Some "INVALID_TOKEN")))
  | Token userId =>
      let* u := select_profile_by_id userId in
      match u with
      | Error _ => ret (inl (Rejected 403 "Invalid or expired token" (Some "INVALID_TOKEN")))
      | Data user => ret (inr user)
      end
  end.

Definition requireActiveAccount (user : profile) : option response :=
  if negb (is_active user) then
    Some (Rejected 403 "Account is not active. Please wait for activation."
            (Some "ACCOUNT_INACTIVE"))
  else None.

(** ** controllers/authController.mjs *)

Definition signup (b : signup_body) (e : env) : Store response :=
  let* existing := select_profile_by_email (s_email b) in
  match existing with
  | Data _ => ret (Rejected 400 "Email already exists" (Some "EMAIL_EXISTS"))
  | Error _ =>
  let passwordHash := digest e in
  let accountNumber := generateAccountNumber (random10 e) in
  let* r := insert_profile
         {| name := s_name b; email := s_email b; password_hash := passwordHash;
            account_number := accountNumber;
            balance := units 100000;
            is_active := ACCOUNT_STATUS.INACTIVE |} in
  match r with
  | Error message =>
      ret (Rejected 400 ("Failed to create user account: " +:+ message)
             (Some "USER_CREATION_FAILED"))
  | Data newUser => ret (SignedUp newUser)
  end end.

Definition activateAccount (userId : nat) : Store response :=
  let* r := update_returning (UpdateActive userId true) (set_active true) userId in
  match r with
  | Error _ => ret (Rejected 404 "User not found" (Some "USER_NOT_FOUND"))
  | Data user => ret (AccountActivated user)
  end.

(** ** routes/admin.mjs *)

(** [requireAdmin]; [admin] tells whether the header carries [ADMIN_TOKEN].
    The [:userId] parameter of a matched route is never empty, so the
    handlers' [!userId] guards are not reachable. *)
Definition requireAdmin (admin : bool) : option response :=
  if negb admin then Some (Rejected 401 "Admin access required" None) else None.

Definition decimal (n : N) : string :=
  DecimalString.NilEmpty.string_of_uint (N.to_uint n).

Definition admin_activate (userId : nat) (initial_balance : option Z) (e : env)
  : Store response :=
  let initial_balance := default (units 1000) initial_balance in
  let account_number := "RS" +:+ Js.slice_last 8 (decimal (now e)) in
  let* r := update_returning (UpdateActivation userId account_number initial_balance)
         (λ c, set_balance initial_balance (set_number account_number (set_active true c)))
         userId in
  match r with
  | Error message =>
      ret (Rejected 500 ("Failed to activate account: " +:+ message) None)
  | Data user => ret (AdminDone user)
  end.

Definition admin_deactivate (userId : nat) : Store response :=
  let* r := update_returning (UpdateActive userId false) (set_active false) userId in
  match r with
  | Error message =>
      ret (Rejected 500 ("Failed to deactivate account: " +:+ message) None)
  | Data user => ret (AdminDone user)
  end.

Definition admin_balance (userId : nat) (new_balance : option Z) (operation : option string)
  : Store response :=
  match new_balance with
  | None => ret (Rejected 400 "User ID and balance are required" None)
  | Some amount =>
  let* p := select_profile_by_id userId in
  match p with
  | Error _ => ret (Rejected 404 "User account not found" None)
  | Data currentProfile =>
  let operation := default "set" operation in
  let newBalance :=
    if String.eqb operation "add" then balance currentProfile + amount
    else if String.eqb operation "subtract" then Z.max 0 (balance currentProfile - amount)
    else amount in
  let* r := update_returning (UpdateBalance userId newBalance) (set_balance newBalance) userId in
  match r with
  | Error message => ret (Rejected 500 ("Failed to update balance: " +:+ message) None)
  | Data user => ret (AdminDone user)
  end end end.

(** ** The routes

    routes/transactions.mjs, routes/accounts.mjs, routes/auth.mjs and the
    admin router.  The express-validator chains of middleware/validation.mjs
    sit between [requireActiveAccount] and the handler; they answer 400 or
    pass the body on, its amount unconverted, and are left out of the
    pipeline: a handler is verified on every body of its type, also on
    those a chain would have refused. *)

Inductive request :=
| POST_transactions (c : credentials) (b : body)
| POST_transactions_withdraw (c : credentials) (b : body)
| POST_transactions_transfer (c : credentials) (b : body)
| POST_transactions_deposit (c : credentials) (b : body)
| POST_accounts_transfer (c : credentials) (b : body)
| POST_auth_signup (b : signup_body)
| PATCH_auth_activate (c : credentials) (userId : nat)
| POST_admin_activate (admin : bool) (userId : nat) (initial_balance : option Z)
| POST_admin_deactivate (admin : bool) (userId : nat)
| POST_admin_balance (admin : bool) (userId : nat) (new_balance : option Z)
    (operation : option string).

(** [authenticateToken, requireActiveAccount, handler]. *)
Definition active_route (c : credentials) (handler : profile → Store response)
  : Store response :=
  let* a := authenticateToken c in
  match a with
  | inl r => ret r
  | inr user =>
      match requireActiveAccount user with
      | Some r => ret r
      | None => handler user
      end
  end.

Definition admin_route (admin : bool) (handler : Store response) : Store response :=
  match requireAdmin admin with
  | Some r => ret r
  | None => handler
  end.

Definition handle (r : request) (e : env) : Store response :=
  match r with
  | POST_transactions c b => active_route c (λ user, createTransaction user b e)
  | POST_transactions_withdraw c b => active_route c (λ user, createWithdrawal user b e)
  | POST_transactions_transfer c b => active_route c (λ user, createTransfer user b e)
  | POST_transactions_deposit c b => active_route c (λ user, createDeposit user b e)
  | POST_accounts_transfer c b => active_route c (λ user, transfer user b)
  | POST_auth_signup b => signup b e
  | PATCH_auth_activate c userId =>
      let* a := authenticateToken c in
      match a with
      | inl r => ret r
      | inr _ => activateAccount userId
      end
  | POST_admin_activate admin userId initial_balance =>
      admin_route admin (admin_activate userId initial_balance e)
  | POST_admin_deactivate admin userId => admin_route admin (admin_deactivate userId)
  | POST_admin_balance admin userId new_balance operation =>
      admin_route admin (admin_balance userId new_balance operation)
  end.

(** The money-movement operations: the single-account movement with its
    three presets, and the two-account transfer. *)
Definition money_movement (r : request) : bool :=
  match r with
  | POST_transactions _ _ | POST_transactions_withdraw _ _
  | POST_transactions_transfer _ _ | POST_transactions_deposit _ _
  | POST_accounts_transfer _ _ => true
  | _ => false
  end.

(** A serial history: requests handled one after the other, each with its
    own ambient reads.  The result keeps every response and call trace. *)
Fixpoint run (h : list (request * env)) (w : world)
  : list (response * list event) * world :=
  match h with
  | [] => ([], w)
  | (r, e) :: h' =>
      let '(resp, w1, evs) := handle r e w in
      let '(rest, w2) := run h' w1 in
      ((resp, evs) :: rest, w2)
  end.

(** ** Observing a run *)

Definition answer {A} (r : A * world * list event) : A := r.1.1.
Definition final {A} (r : A * world * list event) : db := store r.1.2.
Definition trace {A} (r : A * world * list event) : list event := r.2.

(** ** Vocabulary of the ledger properties *)

(** The signed amount of a movement: credit positive, debit negative. *)
Definition signed (t : transaction) : Z :=
  if String.eqb (type t) "credit" then amount t
  else if String.eqb (type t) "debit" then - amount t
  else 0.

(** The completed movements recorded against account [A]. *)
Definition against (A : nat) (t : transaction) : bool :=
  Nat.eqb (user_id t) A && String.eqb (status t) "completed".

Fixpoint ledger (A : nat) (ts : list transaction) : Z :=
  match ts with
  | [] => 0
  | t :: rest => (if against A t then signed t else 0) + ledger A rest
  end.

(** Every balance is the opening balance of its account plus its ledger. *)
Definition consistent (opening : nat → Z) (d : db) : Prop :=
  ∀ A c, profiles d !! A = Some c → balance c = opening A + ledger A (transactions d).

(** The calls of a trace up to its first failed call, and those after it. *)
Fixpoint before_failure (evs : list event) : list event :=
  match evs with
  | [] => []
  | e :: rest => if ok e then e :: before_failure rest else []
  end.

Fixpoint after_failure (evs : list event) : option (list event) :=
  match evs with
  | [] => None
  | e :: rest => if ok e then after_failure rest else Some rest
  end.

(** A trace in which every call succeeds or, after the first call that
    fails, every later call (the compensation) succeeds. *)
Definition benign (evs : list event) : bool :=
  match after_failure evs with
  | None => true
  | Some rest => forallb ok rest
  end.

(** The call that reverses a successful write, [pre] being the store the
    operation started from. *)
Definition undo (pre : db) (e : event) : call :=
  match ev_call e, ev_reply e with
  | InsertTransaction _, Transaction t => DeleteTransaction (tid t)
  | UpdateBalance id _, _ =>
      UpdateBalance id (default 0 (balance <$> profiles pre !! id))
  | c, _ => c
  end.

(** After a failed write the handler undoes the writes that had succeeded:
    in the order they were made, or in the reverse order. *)
Definition undoes_in_order (pre : db) (ws : list event) : Prop :=
  ∀ comps, after_failure ws = Some comps →
    ev_call <$> comps = undo pre <$> before_failure ws.

Definition undoes_in_reverse (pre : db) (ws : list event) : Prop :=
  ∀ comps, after_failure ws = Some comps →
    ev_call <$> comps = reverse (undo pre <$> before_failure ws).

Definition writes_only (evs : list event) : list event := List.filter is_write evs.

Definition rejected (r : response) : bool :=
  match r with
  | Rejected _ _ _ => true
  | _ => false
  end.

Definition code_of (r : response) : option string :=
  match r with
  | Rejected _ _ code => code
  | _ => None
  end.

(** The two legs of a transfer, as [transfer] writes them. *)
Definition debit_leg (sender : nat) (b : body) : transaction_cols :=
  {| user_id := sender; type := "debit"; amount := b_amount b;
     description :=
       Some (Js.or_else (b_description b)
               ("Transfer to " +:+ Js.show (b_to_account_number b)));
     to_account_number := b_to_account_number b;
     transaction_type := None; reference := None; status := "completed" |}.

Definition credit_leg (recipient : nat) (sender_number : string) (b : body)
  : transaction_cols :=
  {| user_id := recipient; type := "credit"; amount := b_amount b;
     description :=
       Some (Js.or_else (b_description b) ("Transfer from " +:+ sender_number));
     to_account_number := Some sender_number;
     transaction_type := None; reference := None; status := "completed" |}.

(** The store after a completed transfer of [a] from [sender] to [recipient]. *)
Definition transferred (d : db) (sender recipient : nat) (cs cr : profile_cols)
    (b : body) : db :=
  let td := {| tid := next_tid (transactions d); tcols := debit_leg sender b |} in
  let tc := {| tid := next_tid (transactions d ++ [td]);
               tcols := credit_leg recipient (account_number cs) b |} in
  {| profiles :=
       alter (set_balance (balance cr + b_amount b)) recipient
         (alter (set_balance (balance cs - b_amount b)) sender (profiles d));
     transactions := (transactions d ++ [td]) ++ [tc] |}.

(** An operation keeps the ledger invariant and the set of accounts. *)
Definition preserves (opening : nat → Z) (d d' : db) : Prop :=
  (consistent opening d → consistent opening d') ∧ dom (profiles d') = dom (profiles d).

(** The bearer of a money-movement request, and the requests that
    activate account [A]. *)
Definition caller (r : request) : option credentials :=
  match r with
  | POST_transactions c _ | POST_transactions_withdraw c _
  | POST_transactions_transfer c _ | POST_transactions_deposit c _
  | POST_accounts_transfer c _ => Some c
  | _ => None
  end.

Definition activates (r : request) (A : nat) : bool :=
  match r with
  | PATCH_auth_activate _ userId | POST_admin_activate _ userId _ => Nat.eqb userId A
  | _ => false
  end.

(** ** Base-36 numerals and references *)

(** The characters [n.toString(36)] is made of. *)
Definition is_digit36 (c : ascii) : bool :=
  let n := N_of_ascii c in
  ((48 <=? n) && (n <=? 57) || (97 <=? n) && (n <=? 122))%N.

Fixpoint all_digit36 (s : string) : bool :=
  match s with
  | EmptyString => true
  | String c r => is_digit36 c && all_digit36 r
  end.

Definition value36 (c : ascii) : N :=
  let n := N_of_ascii c in
  if (n <=? 57)%N then (n - 48)%N else (n - 87)%N.

(** The number a base-36 numeral denotes, most significant digit first. *)
Fixpoint value_from (v : N) (s : string) : N :=
  match s with
  | EmptyString => v
  | String c r => value_from (v * 36 + value36 c) r
  end.

Definition lower_ascii (c : ascii) : ascii :=
  let n := N_of_ascii c in
  if ((65 <=? n) && (n <=? 90))%N then ascii_of_N (n + 32) else c.

Fixpoint has_dash (s : string) : bool :=
  match s with
  | EmptyString => false
  | String c r => Ascii.eqb c "-" || has_dash r
  end.

Definition valid_category (c : string) : bool :=
  Js.includes ["transfer"; "withdrawal"; "deposit"; "payment"; "refund"] (Some c).

(** The category of a movement request, [transfer] when absent. *)
Definition category (b : body) : string := default "transfer" (b_transaction_type b).

(** ** The validator of a movement

    The decision function of the specification (section 4.1, preceded by the
    account load of section 4.4), against which the guards of
    [createTransaction] are compared. *)

Inductive verdict :=
| AccountInactive
| InvalidDirection
| InvalidAmount
| InvalidCategory
| AccountNotFound
| InsufficientFunds.

Definition validator (active : bool) (direction : option string) (amount : Z)
    (category : string) (loaded : option Z) : option verdict :=
  if negb active then Some AccountInactive
  else if negb (Js.includes ["credit"; "debit"] direction) then Some InvalidDirection
  else if amount <=? 0 then Some InvalidAmount
  else if negb (Js.includes ["transfer"; "withdrawal"; "deposit"; "payment"; "refund"]
                  (Some category)) then Some InvalidCategory
  else match loaded, direction with
       | None, _ => Some AccountNotFound
       | Some current, Some direction =>
           if String.eqb direction "debit" && (current <? amount)
           then Some InsufficientFunds else None
       | Some _, None => None
       end.

Definition verdict_code (v : verdict) : string :=
  match v with
  | AccountInactive => "ACCOUNT_INACTIVE"
  | InvalidDirection => "INVALID_TRANSACTION_TYPE"
  | InvalidAmount => "INVALID_AMOUNT"
  | InvalidCategory => "INVALID_TRANSACTION_CATEGORY"
  | AccountNotFound => "ACCOUNT_NOT_FOUND"
  | InsufficientFunds => "INSUFFICIENT_FUNDS"
  end.

(** The balance that the next read of account [id] returns in world [w]. *)
Definition loaded_balance (w : world) (id : nat) : option Z :=
  match hd Done (faults w) with
  | Done => balance <$> profiles (store w) !! id
  | Failed _ => None
  end.

Definition is_insert (e : event) : bool :=
  match ev_call e with
  | InsertTransaction _ => true
  | _ => false
  end.

(** ** A small bank used in the examples *)

Definition customer (n number : string) (b : Z) (active : bool) : profile_cols :=
  {| name := n; email := n +:+ "@example.com"; password_hash := "$2a$12$";
     account_number := number; balance := b; is_active := active |}.

(** Account 1 holds 500.00, account 2 holds 200.00, account 3 has just
    signed up. *)
Definition bank : db :=
  {| profiles :=
       <[1%nat := customer "xavier" "RS0000000001" (units 500) true]>
         (<[2%nat := customer "yvonne" "RS0000000002" (units 200) true]>
            (<[3%nat := customer "zoe" "RS0000000003" (units 100000) false]> ∅));
     transactions := [] |}.

Definition xavier : profile :=
  {| pid := 1; pcols := customer "xavier" "RS0000000001" (units 500) true |}.

Definition zoe : profile :=
  {| pid := 3; pcols := customer "zoe" "RS0000000003" (units 100000) false |}.

Definition to_yvonne (a : Z) : body :=
  {| b_type := None; b_amount := a; b_description := None;
     b_to_account_number := Some "RS0000000002"; b_transaction_type := None |}.

Definition movement (type : string) (a : Z) (category : string) : body :=
  {| b_type := Some type; b_amount := a; b_description := Some "cash";
     b_to_account_number := None; b_transaction_type := Some category |}.

Definition world_of (d : db) (fs : list outcome) : world := {| store := d; faults := fs |}.

Definition noon : env :=
  {| now := 1700000000000; random36 := "0.4fzyo82mvyr";
     random10 := "0.7312945586112"; digest := "$2a$12$" |}.

(** A serial history: a deposit, a transfer whose last write fails and is
    compensated, and a withdrawal. *)
Definition afternoon : list (request * env) :=
  [ (POST_transactions_deposit (Token 1) (movement "credit" (units 50) "deposit"), noon);
    (POST_accounts_transfer (Token 1) (to_yvonne (units 150)), noon);
    (POST_transactions_withdraw (Token 2) (movement "debit" (units 20) "withdrawal"), noon) ].

Definition afternoon_faults : list outcome :=
  [Done; Done; Done; Done;
   Done; Done; Done; Done; Done; Done; Failed "timeout"; Done; Done; Done].

Definition a_moment_later : env :=
  {| now := 1700000000001; random36 := "0.k3j9x1a7pq";
     random10 := "0.2210945586112"; digest := "$2a$12$" |}.

(** The row that a deposit of 50.00 by account 1 inserts. *)
Definition deposit_row (r : string) : transaction_cols :=
  {| user_id := 1; type := "credit"; amount := units 50;
     description := Some "cash"; to_account_number := None;
     transaction_type := Some "deposit"; reference := Some r;
     status := "completed" |}.

Definition duplicate_key : string :=
  "duplicate key value violates unique constraint transactions_reference_key".


(** * Further code of the backend *)

(** ** Read-only handlers

    A read-only handler issues its single query through [read], which
    consumes one fault of the schedule like any other store call. *)

Definition Read (A : Type) : Type := world → A * world.

Definition read {A} (run : db → result A) : Read (result A) :=
  λ w, let '(o, w1) := next_fault w in
       match o with
       | Failed msg => (Error msg, w1)
       | Done => (run (store w1), w1)
       end.

(** What a read-only handler sends: the JSON payload, or an error. *)
Inductive sent (A : Type) :=
| Json (payload : A)
| Refused (http : nat) (error : string) (code : option string).
Arguments Json {A} payload.
Arguments Refused {A} http error code.

(** *** controllers/accountController.mjs, [getBalance] *)

Record balance_json := { j_balance : Z; j_account_number : string }.

Definition getBalance (user : profile) : Read (sent balance_json) :=
  λ w, let '(r, w1) :=
         read (λ d, match profiles d !! pid user with
                    | Some c => Data {| pid := pid user; pcols := c |}
                    | None => Error no_rows
                    end) w in
       match r with
       | Error _ => (Refused 404 "Account not found" (Some ERROR_CODES.ACCOUNT_NOT_FOUND), w1)
       | Data profile =>
           (Json {| j_balance := balance profile;
                    j_account_number := account_number profile |}, w1)
       end.

(** *** controllers/transactionController.mjs, [getTransactionById] *)

(** [.single()] on rows of [transactions]. *)
Definition single_row (rows : list transaction) : result transaction :=
  match rows with
  | [t] => Data t
  | _ => Error no_rows
  end.

Definition getTransactionById (user : profile) (id : nat) : Read (sent transaction) :=
  λ w, let '(r, w1) :=
         read (λ d, single_row
                      (List.filter (λ t : transaction,
                                      Nat.eqb (tid t) id && Nat.eqb (user_id t) (pid user))
                         (transactions d))) w in
       match r with
       | Error _ => (Refused 404 "Transaction not found" (Some "TRANSACTION_NOT_FOUND"), w1)
       | Data transaction => (Json transaction, w1)
       end.

(** *** controllers/transactionController.mjs, [getTransactionStats] *)

(** One entry of [type_breakdown]. *)
Record tally := { t_count : nat; t_amount : Z }.

Record stats_json := {
  total_transactions : nat;
  total_credits : Z;
  total_debits : Z;
  net_flow : Z;
  type_breakdown : gmap string tally
}.

(** The reducer of [typeBreakdown].  The accumulator is a JavaScript object
    used as a dictionary; categories that name a property of
    [Object.prototype] are outside the model. *)
Definition tally_step (acc : gmap string tally) (t : transaction) : gmap string tally :=
  let type := Js.or_else (transaction_type t) "transfer" in
  let entry := default {| t_count := 0; t_amount := 0 |} (acc !! type) in
  <[type := {| t_count := S (t_count entry); t_amount := t_amount entry + amount t |}]> acc.

Definition sum_amounts (rows : list transaction) : Z :=
  fold_left (λ sum (t : transaction), sum + amount t) rows 0.

Definition getTransactionStats (user : profile) : Read (sent stats_json) :=
  λ w, let '(r, w1) :=
         read (λ d, Data (List.filter
                            (λ t : transaction,
                               Nat.eqb (user_id t) (pid user)
                               && String.eqb (status t) "completed")
                            (transactions d))) w in
       match r with
       | Error _ =>
           (Refused 400 "Failed to fetch transaction stats" (Some "STATS_FETCH_FAILED"), w1)
       | Data stats =>
           let totalCredits :=
             sum_amounts (List.filter (λ t : transaction, String.eqb (type t) "credit") stats) in
           let totalDebits :=
             sum_amounts (List.filter (λ t : transaction, String.eqb (type t) "debit") stats) in
           let typeBreakdown := fold_left tally_step stats ∅ in
           (Json {| total_transactions := List.length stats;
                    total_credits := totalCredits;
                    total_debits := totalDebits;
                    net_flow := totalCredits - totalDebits;
                    type_breakdown := typeBreakdown |}, w1)
       end.

(** The category a row is counted under: [transaction_type || 'transfer']. *)
Definition counted_under (k : string) (t : transaction) : bool :=
  String.eqb (Js.or_else (transaction_type t) "transfer") k.

(** ** utils/helpers.mjs, [generateBotResponse] *)

(** [s.toLowerCase()] on ASCII text. *)
Fixpoint toLowerCase (s : string) : string :=
  match s with
  | EmptyString => EmptyString
  | String c r => String (lower_ascii c) (toLowerCase r)
  end.

(** [s.includes(sub)]. *)
Fixpoint str_includes (s sub : string) : bool :=
  String.prefix sub s
  || match s with
     | EmptyString => false
     | String _ r => str_includes r sub
     end.

Definition about_balance : string :=
  "I can help you check your account balance. Please go to the Dashboard to view your current balance and transaction history.".
Definition about_transfer : string :=
  "You can transfer money to other accounts using the Transfer feature in your dashboard. Make sure you have the recipient's account number ready.".
Definition about_card : string :=
  "For debit card inquiries, including lost or stolen cards, please contact our card services department at 1-800-RON-STONE.".
Definition about_loan : string :=
  "We offer various loan options. You can apply for a loan through our online portal or visit your nearest branch for personalized assistance.".
Definition about_fee : string :=
  "You can view all account fees and charges in the Fees Schedule section of our website or mobile app.".
Definition about_activation : string :=
  "Account activation typically takes 24-48 hours after verification. Our team will notify you once your account is active.".
Definition about_default : string :=
  "Thank you for your message. Our support team will get back to you shortly. For immediate assistance, you can call our customer service at 1-800-RON-STONE.".

(** The entries of [responses], in the order [Object.entries] yields them. *)
Definition responses : list (string * string) :=
  [ ("balance", about_balance); ("money", about_balance);
    ("transfer", about_transfer); ("send money", about_transfer);
    ("card", about_card); ("debit", about_card);
    ("loan", about_loan); ("credit", about_loan);
    ("fee", about_fee); ("charge", about_fee);
    ("active", about_activation); ("activate", about_activation);
    ("default", about_default) ].

Fixpoint first_match (message : string) (entries : list (string * string)) : option string :=
  match entries with
  | [] => None
  | (keyword, response) :: rest =>
      if str_includes message keyword then Some response else first_match message rest
  end.

Definition generateBotResponse (userMessage : string) : string :=
  let message := toLowerCase userMessage in
  default about_default (first_match message responses).

(** ** Solvency *)

(** No account is overdrawn. *)
Definition solvent (d : db) : Prop :=
  ∀ A c, profiles d !! A = Some c → 0 ≤ balance c.

(** Two rows of [profiles] that differ at most in the balance. *)
Definition same_but_balance (c c' : profile_cols) : Prop :=
  set_balance (balance c) c' = c.

(** The decoder of the timestamp of a reference: the numeral between the
    first and the second dash. *)
Fixpoint until_dash (s : string) : string :=
  match s with
  | EmptyString => EmptyString
  | String c r => if Ascii.eqb c "-" then EmptyString else String c (until_dash r)
  end.

Fixpoint after_dash (s : string) : string :=
  match s with
  | EmptyString => EmptyString
  | String c r => if Ascii.eqb c "-" then r else after_dash r
  end.

Definition timestamp_of (reference : string) : N :=
  value_from 0 (toLowerCase (until_dash (after_dash reference))).

(** The single-account handlers of controllers/transactionController.mjs. *)
Definition movement_handlers : list (profile → body → env → Store response) :=
  [createTransaction; createWithdrawal; createTransfer; createDeposit].

(** The statistics of account 1 after [afternoon] with every call succeeding. *)
Definition afternoon_stats : stats_json :=
  {| total_transactions := 2;
     total_credits := units 50;
     total_debits := units 150;
     net_flow := - units 100;
     type_breakdown :=
       <["deposit" := {| t_count := 1; t_amount := units 50 |}]>
         (<["transfer" := {| t_count := 1; t_amount := units 150 |}]> ∅) |}.

(** * Amounts as the validators pass them on

    The chains of middleware/validation.mjs check the amount with
    [isFloat({ min: 0.01 })] and convert nothing: the check reads the field
    as text and [req.body.amount] stays what the client sent.  A JSON number
    reaches the handler as a number, and a JSON string such as ["30"]
    reaches it as a string.  The handlers of the first part take a body
    whose amount is a number; module [Untyped] gives the same handlers on
    both kinds of amount, with the JavaScript operators they apply to it
    written out.  [typed_body] maps a body of the second kind to one of the
    first, and the handlers agree on the bodies whose amount is a number. *)

Module Untyped.

(** [req.body.amount]: a JSON number with at most two decimals, held in
    cents, or a JSON string that is the decimal numeral of a whole number,
    held as that number. *)
Inductive amount_json :=
| number (cents : Z)
| numeral (whole : N).

(** [Number(amount)], in cents: what [<=], [<] and [-] make of the amount. *)
Definition to_number (a : amount_json) : Z :=
  match a with
  | number cents => cents
  | numeral whole => Z.of_N whole * 100
  end.

(** The digits after the point of a number that has [f] hundredths,
    [0 < f < 100]. *)
Definition hundredths (f : Z) : string :=
  if f mod 10 =? 0 then decimal (Z.to_N (f / 10))
  else (if f <? 10 then "0" else "") +:+ decimal (Z.to_N f).

(** [String(x)] for a number [x] of at most two decimals, given in cents:
    [500], [500.5], [500.05], [-0.25]. *)
Definition to_string (cents : Z) : string :=
  let a := Z.abs cents in
  (if cents <? 0 then "-" else "")
  +:+ decimal (Z.to_N (a / 100))
  +:+ (if a mod 100 =? 0 then "" else "." +:+ hundredths (a mod 100)).

(** What an arithmetic operator of the handler yields: a number, in cents,
    or a string. *)
Inductive value :=
| Num (cents : Z)
| Str (s : string).

(** [x + amount] for a number [x]: the sum when the amount is a number, the
    concatenation of the two texts when it is a string. *)
Definition plus (x : Z) (a : amount_json) : value :=
  match a with
  | number cents => Num (x + cents)
  | numeral whole => Str (to_string x +:+ decimal whole)
  end.

(** [x - amount] for a number [x]: [-] converts both sides to numbers. *)
Definition minus (x : Z) (a : amount_json) : Z := x - to_number a.

Definition digit (c : ascii) : option Z :=
  let n := Z.of_N (N_of_ascii c) in
  if (48 <=? n) && (n <=? 57) then Some (n - 48) else None.

(** The number that the leading digits of [s] denote after [acc], and the
    rest of [s]. *)
Fixpoint leading (acc : Z) (s : string) : Z * string :=
  match s with
  | String c r =>
      match digit c with
      | Some d => leading (acc * 10 + d) r
      | None => (acc, s)
      end
  | EmptyString => (acc, s)
  end.

(** The hundredths that the digits [s] after a point denote, rounded on the
    third digit. *)
Definition rounded (s : string) : Z :=
  let nth k := default 0 (String.get k s ≫= digit) in
  10 * nth 0%nat + nth 1%nat + (if 5 <=? nth 2%nat then 1 else 0).

(** The content, in cents, that a DECIMAL(15,2) column takes from the
    decimal literal [s], written [-]digits[.digits]: the store rounds to two
    decimals, half away from zero.  [plus] builds no other strings. *)
Definition literal (s : string) : Z :=
  let '(sign, s1) :=
    match s with
    | String "-" r => (-1, r)
    | _ => (1, s)
    end in
  let '(whole, s2) := leading 0 s1 in
  sign * (whole * 100 + match s2 with
                        | String "." r => rounded r
                        | _ => 0
                        end).

(** The content of a DECIMAL(15,2) column written with [v]. *)
Definition stored (v : value) : Z :=
  match v with
  | Num cents => cents
  | Str s => literal s
  end.

(** The JSON body of a money-movement request. *)
Record body := {
  u_type : option string;
  u_amount : amount_json;
  u_description : option string;
  u_to_account_number : option string;
  u_transaction_type : option string
}.

(** *** utils/helpers.mjs, [calculateNewBalance] *)

Definition calculateNewBalance (currentBalance : Z) (amount : amount_json) (type : string)
  : value :=
  if String.eqb type "credit" then plus currentBalance amount
  else if String.eqb type "debit" then Num (minus currentBalance amount)
  else Num currentBalance.

(** *** controllers/transactionController.mjs

    A handler answers with a refusal or with the movement row of its
    success answer.  The [new_balance] field of that answer, the unrounded
    result of the arithmetic, is left out.  The [amount] column of a row
    written with a numeral takes the number the numeral denotes. *)

Definition createTransaction (user : profile) (b : body) (e : env)
  : Store (response + transaction) :=
  let amount := u_amount b in
  let transaction_type := default "transfer" (u_transaction_type b) in
  if negb (is_active user) then
    ret (inl (Rejected 403
                "Account is not active. Please wait for activation to perform transactions."
                (Some "ACCOUNT_INACTIVE")))
  else
  match u_type b with
  | None => ret (inl (Rejected 400 "Invalid transaction type" (Some "INVALID_TRANSACTION_TYPE")))
  | Some type =>
  if negb (Js.includes ["credit"; "debit"] (Some type)) then
    ret (inl (Rejected 400 "Invalid transaction type" (Some "INVALID_TRANSACTION_TYPE")))
  else if to_number amount <=? 0 then
    ret (inl (Rejected 400 "Amount must be positive" (Some "INVALID_AMOUNT")))
  else if negb (Js.includes ["transfer"; "withdrawal"; "deposit"; "payment"; "refund"]
                  (Some transaction_type)) then
    ret (inl (Rejected 400 "Invalid transaction type" (Some "INVALID_TRANSACTION_CATEGORY")))
  else
  let* p := select_profile_by_id (pid user) in
  match p with
  | Error _ =>
      ret (inl (Rejected 400 "Failed to fetch account balance" (Some ACCOUNT_NOT_FOUND)))
  | Data profile =>
  if String.eqb type "debit" && (balance profile <? to_number amount) then
    ret (inl (Rejected 400 "Insufficient funds" (Some INSUFFICIENT_FUNDS)))
  else
  let reference := generateReference transaction_type (now e) (random36 e) in
  let* t := insert_transaction
         {| user_id := pid user; type := type; amount := to_number amount;
            description := u_description b;
            to_account_number := u_to_account_number b;
            transaction_type := Some transaction_type;
            reference := Some reference;
            status := "completed" |} in
  match t with
  | Error message => ret (inl (Rejected 400 message (Some TRANSACTION_FAILED)))
  | Data transaction =>
  let newBalance := calculateNewBalance (balance profile) amount type in
  let* u := update_balance (pid user) (stored newBalance) in
  match u with
  | Error _ =>
      let* _ := delete_transaction (tid transaction) in
      ret (inl (Rejected 400 "Transaction failed" (Some TRANSACTION_FAILED)))
  | Data _ => ret (inr transaction)
  end end end end.

Definition with_fields (b : body) (type transaction_type description : string) : body :=
  {| u_type := Some type; u_amount := u_amount b; u_description := Some description;
     u_to_account_number := u_to_account_number b;
     u_transaction_type := Some transaction_type |}.

Definition createWithdrawal (user : profile) (b : body) (e : env)
  : Store (response + transaction) :=
  let to_account_number := u_to_account_number b in
  createTransaction user
    (with_fields b "debit" "withdrawal"
       (Js.or_else (u_description b)
          ("Withdrawal" +:+
           (if Js.truthy to_account_number then " to " +:+ Js.show to_account_number else ""))))
    e.

Definition createTransfer (user : profile) (b : body) (e : env)
  : Store (response + transaction) :=
  let to_account_number := u_to_account_number b in
  if negb (Js.truthy to_account_number) then
    ret (inl (Rejected 400 "Recipient account number is required for transfers"
                (Some "MISSING_RECIPIENT")))
  else
    createTransaction user
      (with_fields b "debit" "transfer"
         (Js.or_else (u_description b) ("Transfer to " +:+ Js.show to_account_number)))
      e.

Definition createDeposit (user : profile) (b : body) (e : env)
  : Store (response + transaction) :=
  createTransaction user
    (with_fields b "credit" "deposit" (Js.or_else (u_description b) "Deposit")) e.

(** *** controllers/accountController.mjs *)

Definition transfer (user : profile) (b : body) : Store (response + transaction) :=
  let to_account_number := u_to_account_number b in
  let amount := u_amount b in
  let description := u_description b in
  if negb (is_active user) then
    ret (inl (Rejected 403
                "Account is not active. Please wait for activation to perform transfers."
                (Some "ACCOUNT_INACTIVE")))
  else if to_number amount <=? 0 then
    ret (inl (Rejected 400 "Amount must be positive" (Some "INVALID_AMOUNT")))
  else
  let* r := select_profile_by_number to_account_number in
  match r with
  | Error _ => ret (inl (Rejected 400 "Recipient account not found" (Some ACCOUNT_NOT_FOUND)))
  | Data recipient =>
  if negb (is_active recipient) then
    ret (inl (Rejected 400 "Recipient account is not active" (Some "RECIPIENT_INACTIVE")))
  else if Nat.eqb (pid recipient) (pid user) then
    ret (inl (Rejected 400 "Cannot transfer to your own account" (Some "SELF_TRANSFER")))
  else
  let* s := select_profile_by_id (pid user) in
  match s with
  | Error _ =>
      ret (inl (Rejected 400 "Failed to fetch sender account" (Some ACCOUNT_NOT_FOUND)))
  | Data senderProfile =>
  if balance senderProfile <? to_number amount then
    ret (inl (Rejected 400 "Insufficient funds" (Some INSUFFICIENT_FUNDS)))
  else
  let* d := insert_transaction
         {| user_id := pid user; type := "debit"; amount := to_number amount;
            description :=
              Some (Js.or_else description ("Transfer to " +:+ Js.show to_account_number));
            to_account_number := to_account_number;
            transaction_type := None; reference := None;
            status := "completed" |} in
  match d with
  | Error _ =>
      ret (inl (Rejected 400 "Failed to create debit transaction" (Some TRANSACTION_FAILED)))
  | Data debitTransaction =>
  let* c := insert_transaction
         {| user_id := pid recipient; type := "credit"; amount := to_number amount;
            description :=
              Some (Js.or_else description
                      ("Transfer from " +:+ account_number senderProfile));
            to_account_number := Some (account_number senderProfile);
            transaction_type := None; reference := None;
            status := "completed" |} in
  match c with
  | Error _ =>
      let* _ := delete_transaction (tid debitTransaction) in
      ret (inl (Rejected 400 "Failed to create credit transaction" (Some TRANSACTION_FAILED)))
  | Data creditTransaction =>
  let* us := update_balance (pid user) (minus (balance senderProfile) amount) in
  match us with
  | Error _ =>
      let* _ := delete_transaction (tid debitTransaction) in
      let* _ := delete_transaction (tid creditTransaction) in
      ret (inl (Rejected 400 "Failed to update sender balance" (Some TRANSACTION_FAILED)))
  | Data _ =>
  let* ur := update_balance (pid recipient) (stored (plus (balance recipient) amount)) in
  match ur with
  | Error _ =>
      let* _ := delete_transaction (tid debitTransaction) in
      let* _ := delete_transaction (tid creditTransaction) in
      let* _ := update_balance (pid user) (balance senderProfile) in
      ret (inl (Rejected 400 "Failed to update recipient balance" (Some TRANSACTION_FAILED)))
  | Data _ => ret (inr debitTransaction)
  end end end end end end.

(** *** The money-movement routes *)

Inductive request :=
| POST_transactions (c : credentials) (b : body)
| POST_transactions_withdraw (c : credentials) (b : body)
| POST_transactions_transfer (c : credentials) (b : body)
| POST_transactions_deposit (c : credentials) (b : body)
| POST_accounts_transfer (c : credentials) (b : body).

(** [authenticateToken, requireActiveAccount, handler]; the validator chain
    between the last two is left out, as in the first part. *)
Definition active_route (c : credentials) (handler : profile → Store (response + transaction))
  : Store (response + transaction) :=
  let* a := authenticateToken c in
  match a with
  | inl r => ret (inl r)
  | inr user =>
      match requireActiveAccount user with
      | Some r => ret (inl r)
      | None => handler user
      end
  end.

Definition handle (r : request) (e : env) : Store (response + transaction) :=
  match r with
  | POST_transactions c b => active_route c (λ user, createTransaction user b e)
  | POST_transactions_withdraw c b => active_route c (λ user, createWithdrawal user b e)
  | POST_transactions_transfer c b => active_route c (λ user, createTransfer user b e)
  | POST_transactions_deposit c b => active_route c (λ user, createDeposit user b e)
  | POST_accounts_transfer c b => active_route c (λ user, transfer user b)
  end.

Fixpoint run (h : list (request * env)) (w : world)
  : list ((response + transaction) * list event) * world :=
  match h with
  | [] => ([], w)
  | (r, e) :: h' =>
      let '(resp, w1, evs) := handle r e w in
      let '(rest, w2) := run h' w1 in
      ((resp, evs) :: rest, w2)
  end.

Definition body_of (r : request) : body :=
  match r with
  | POST_transactions _ b | POST_transactions_withdraw _ b
  | POST_transactions_transfer _ b | POST_transactions_deposit _ b
  | POST_accounts_transfer _ b => b
  end.

(** The amount of the request is a JSON number; a whole number of units. *)
Definition sends_number (r : request) : bool :=
  match u_amount (body_of r) with
  | number _ => true
  | numeral _ => false
  end.

Definition sends_whole_number (r : request) : bool :=
  match u_amount (body_of r) with
  | number cents => cents mod 100 =? 0
  | numeral _ => false
  end.

End Untyped.

(** ** The two readings of a request *)

(** The body with its amount read as a number. *)
Definition typed_body (b : Untyped.body) : body :=
  {| b_type := Untyped.u_type b;
     b_amount := Untyped.to_number (Untyped.u_amount b);
     b_description := Untyped.u_description b;
     b_to_account_number := Untyped.u_to_account_number b;
     b_transaction_type := Untyped.u_transaction_type b |}.

Definition typed_request (r : Untyped.request) : request :=
  match r with
  | Untyped.POST_transactions c b => POST_transactions c (typed_body b)
  | Untyped.POST_transactions_withdraw c b => POST_transactions_withdraw c (typed_body b)
  | Untyped.POST_transactions_transfer c b => POST_transactions_transfer c (typed_body b)
  | Untyped.POST_transactions_deposit c b => POST_transactions_deposit c (typed_body b)
  | Untyped.POST_accounts_transfer c b => POST_accounts_transfer c (typed_body b)
  end.

(** A success answer without its [new_balance] field. *)
Definition without_balance (r : response) : response + transaction :=
  match r with
  | TransactionCreated t _ | TransferCompleted t _ => inr t
  | _ => inl r
  end.

(** A deposit and a transfer whose amount is sent as a string. *)
Definition deposit_30_as_text : Untyped.body :=
  {| Untyped.u_type := None; Untyped.u_amount := Untyped.numeral 30;
     Untyped.u_description := None; Untyped.u_to_account_number := None;
     Untyped.u_transaction_type := None |}.

Definition transfer_150_as_text : Untyped.body :=
  {| Untyped.u_type := None; Untyped.u_amount := Untyped.numeral 150;
     Untyped.u_description := None;
     Untyped.u_to_account_number := Some "RS0000000002";
     Untyped.u_transaction_type := None |}.

(** A body of the first part, its amount sent as a number. *)
Definition as_number (b : body) : Untyped.body :=
  {| Untyped.u_type := b_type b; Untyped.u_amount := Untyped.number (b_amount b);
     Untyped.u_description := b_description b;
     Untyped.u_to_account_number := b_to_account_number b;
     Untyped.u_transaction_type := b_transaction_type b |}.

(** The requests of [afternoon], their amounts sent as numbers. *)
Definition afternoon_numbers : list (Untyped.request * env) :=
  [ (Untyped.POST_transactions_deposit (Token 1)
       (as_number (movement "credit" (units 50) "deposit")), noon);
    (Untyped.POST_accounts_transfer (Token 1) (as_number (to_yvonne (units 150))), noon);
    (Untyped.POST_transactions_withdraw (Token 2)
       (as_number (movement "debit" (units 20) "withdrawal")), noon) ].

(** Someone who signs up, is turned away, activates the new account with the
    token of the signup, and sends money. *)
Definition walt : signup_body :=
  {| s_name := "walt"; s_email := "walt@example.com"; s_password := "secret" |}.

Definition newcomer : list (request * env) :=
  [ (POST_auth_signup walt, noon);
    (POST_accounts_transfer (Token 4) (to_yvonne (units 150)), noon);
    (PATCH_auth_activate (Token 4) 4, a_moment_later);
    (POST_accounts_transfer (Token 4) (to_yvonne (units 150)), a_moment_later) ].

(** The admin router answered the request: it bore the admin token. *)
Definition by_admin (r : request) : bool :=
  match r with
  | POST_admin_activate admin _ _ | POST_admin_deactivate admin _
  | POST_admin_balance admin _ _ _ => admin
  | _ => false
  end.
(** ** Symbolic execution of a handler

    A handler is run on a symbolic world by splitting on the scrutinee at
    the head of the computation: the next fault of the schedule, the
    answer of the store, or the guard of an early return. *)

Ltac unfold_store :=
  unfold select_profile_by_id, select_profile_by_number, select_profile_by_email,
    insert_profile, update_balance, update_returning, insert_transaction,
    delete_transaction, query, next_fault, bind, ret, set_store in *.

Ltac reduce_run :=
  cbv beta iota;
  cbn [hd tl store faults fst snd app pid pcols tid tcols alter_profile
       profiles transactions].

Ltac scrutinee t :=
  lazymatch t with
  | (let '(_, _) := ?p in _) => scrutinee_or p
  | (if ?b then _ else _) => scrutinee_or b
  | match ?o with Some _ => _ | None => _ end => scrutinee_or o
  | match ?r with Data _ => _ | Error _ => _ end => scrutinee_or r
  | match ?o with Done => _ | Failed _ => _ end => scrutinee_or o
  | match ?s with inl _ => _ | inr _ => _ end => scrutinee_or s
  | ?f _ => scrutinee f
  end
with scrutinee_or t :=
  match t with
  | _ => scrutinee t
  | _ => constr:(t)
  end.

Ltac split_on s :=
  lazymatch s with
  | hd Done ?fs => destruct fs as [|[|?] ?]
  | _ =>
      lazymatch goal with
      | H : s = _ |- _ => rewrite H
      | _ => destruct s eqn:?
      end
  end.

Ltac run_step :=
  lazymatch goal with
  | |- ?lhs = _ → _ => let s := scrutinee lhs in split_on s
  end; reduce_run.

Ltac run_handler := unfold_store; reduce_run; repeat run_step.

Ltac leaf := intros [= <- <- <-].

(** Name the three components of the run in the goal and execute it. *)
Ltac start_run :=
  unfold answer, final, trace;
  match goal with
  | |- context [?h ?w] =>
      lazymatch type of (h w) with
      | (_ * world * list event)%type =>
          let Hrun := fresh "Hrun" in
          let d := fresh "d" in
          let fs := fresh "fs" in
          destruct (h w) as [[? ?] ?] eqn:Hrun; cbn [fst snd] in *;
          revert Hrun; destruct w as [d fs]
      end
  end.

(** * Properties *)

(** ** Balance arithmetic *)

(** C9. [calculateNewBalance] returns [c + a] for a credit, [c - a] for a
    debit and [c] for any other direction; on 100, 30 it gives 70 for a
    debit, 130 for a credit and 100 for an unknown direction. *)
Theorem calculateNewBalance_spec (c a : Z) (direction : string) :
  calculateNewBalance c a "credit" = c + a ∧
  calculateNewBalance c a "debit" = c - a ∧
  (direction ≠ "credit" → direction ≠ "debit" → calculateNewBalance c a direction = c) ∧
  calculateNewBalance (units 100) (units 30) "debit" = units 70 ∧
  calculateNewBalance (units 100) (units 30) "credit" = units 130 ∧
  calculateNewBalance (units 100) (units 30) "unknown" = units 100.
Proof.
  repeat split; try reflexivity.
  intros Hc Hd. unfold calculateNewBalance.
  apply String.eqb_neq in Hc, Hd. by rewrite Hc, Hd.
Qed.

Lemma calculateNewBalance_spec_witness :
  "refund" ≠ "credit" ∧ "refund" ≠ "debit" ∧
  calculateNewBalance 500 20 "refund" = 500.
Proof.
  split; [discriminate|]. split; [discriminate|].
  apply (calculateNewBalance_spec 500 20 "refund"); discriminate.
Defined.

(** ** The store *)

Lemma next_tid_fresh (ts : list transaction) (t : transaction) :
  t ∈ ts → tid t ≠ next_tid ts.
Proof.
  intros Ht. unfold next_tid.
  assert (tid t ≤ max_list (tid <$> ts))%nat; [|lia].
  apply max_list_elem_of_le, list_elem_of_fmap. eauto.
Qed.

Lemma delete_fresh (ts : list transaction) (n : nat) :
  (∀ t, t ∈ ts → tid t ≠ n) → filter (λ t, tid t ≠ n) ts = ts.
Proof.
  induction ts as [|t ts IH]; intros H; [done|].
  rewrite filter_cons_True by (apply H; left).
  f_equal. apply IH. intros t' Ht'. apply H. by right.
Qed.

Lemma delete_inserted (ts : list transaction) (cols : transaction_cols) :
  filter (λ t, tid t ≠ next_tid ts) (ts ++ [{| tid := next_tid ts; tcols := cols |}]) = ts.
Proof.
  rewrite filter_app, filter_cons_False, filter_nil, app_nil_r by (simpl; tauto).
  apply delete_fresh, next_tid_fresh.
Qed.

Lemma delete_inserted_pair (ts : list transaction) (c1 c2 : transaction_cols) :
  let t1 := {| tid := next_tid ts; tcols := c1 |} in
  let t2 := {| tid := next_tid (ts ++ [t1]); tcols := c2 |} in
  filter (λ t, tid t ≠ tid t2) (filter (λ t, tid t ≠ tid t1) ((ts ++ [t1]) ++ [t2])) = ts.
Proof.
  intros t1 t2.
  assert (tid t2 ≠ tid t1) as Hne.
  { intros E. symmetry in E. revert E. apply (next_tid_fresh (ts ++ [t1]) t1).
    apply elem_of_app. right. left. }
  rewrite (filter_app _ (ts ++ [t1]) [t2]).
  rewrite (filter_cons_True _ t2 []) by done.
  rewrite filter_nil.
  replace (filter (λ t, tid t ≠ tid t1) (ts ++ [t1])) with ts
    by (symmetry; apply delete_inserted).
  rewrite filter_app, filter_cons_False, filter_nil, app_nil_r by tauto.
  apply delete_fresh. intros t Ht.
  apply (next_tid_fresh (ts ++ [t1]) t), elem_of_app. by left.
Qed.

Lemma set_balance_restore (b : Z) (c : profile_cols) :
  set_balance (balance c) (set_balance b c) = c.
Proof. by destruct c. Qed.

Lemma update_then_restore (m : gmap nat profile_cols) (k : nat) (c : profile_cols) (b : Z) :
  m !! k = Some c →
  alter (set_balance (balance c)) k (alter (set_balance b) k m) = m.
Proof.
  intros H. rewrite alter_alter_eq. apply alter_id.
  intros x Hx. rewrite H in Hx. injection Hx as <-. apply set_balance_restore.
Qed.

Lemma db_eta (d : db) : {| profiles := profiles d; transactions := transactions d |} = d.
Proof. by destruct d. Qed.

(** ** The ledger *)

Lemma ledger_app (A : nat) (l1 l2 : list transaction) :
  ledger A (l1 ++ l2) = ledger A l1 + ledger A l2.
Proof. induction l1 as [|t l1 IH]; cbn; [done|]. rewrite IH. lia. Qed.

Lemma posting_consistent (opening : nat → Z) (d : db) (A : nat) (c : profile_cols)
    (t : transaction) :
  consistent opening d →
  profiles d !! A = Some c →
  user_id t = A → status t = "completed" →
  consistent opening
    {| profiles := alter (set_balance (balance c + signed t)) A (profiles d);
       transactions := transactions d ++ [t] |}.
Proof.
  intros Hd Hc Hu Hs A' c'. cbn [profiles transactions].
  rewrite ledger_app. cbn [ledger]. unfold against. rewrite Hu, Hs.
  destruct (decide (A = A')) as [<-|Hne].
  - rewrite lookup_alter_eq, Hc. intros [= <-]. cbn.
    rewrite Nat.eqb_refl. cbn. rewrite (Hd A c Hc). lia.
  - rewrite lookup_alter_ne by done. intros Hc'.
    apply Nat.eqb_neq in Hne. rewrite Hne. cbn. rewrite (Hd A' c' Hc'). lia.
Qed.

Lemma includes_direction (s : string) :
  negb (Js.includes ["credit"; "debit"] (Some s)) = false → s = "credit" ∨ s = "debit".
Proof.
  cbn. destruct (String.eqb_spec s "credit"); [by left|].
  destruct (String.eqb_spec s "debit"); [by right|]. done.
Qed.

Lemma calculateNewBalance_signed (current : Z) (t : transaction) :
  type t = "credit" ∨ type t = "debit" →
  calculateNewBalance current (amount t) (type t) = current + signed t.
Proof. unfold calculateNewBalance, signed. intros [-> | ->]; cbn; lia. Qed.

Lemma single_inv (rows : list (nat * profile_cols)) (p : profile) :
  single rows = Data p → rows = [(pid p, pcols p)].
Proof.
  destruct rows as [|[k c] [|? ?]]; cbn; try discriminate. by intros [= <-].
Qed.

Lemma selected_by_number (d : db) (number : option string) (p : profile) :
  single (map_to_list
            (filter (λ kc : nat * profile_cols, Some (account_number kc.2) = number)
               (profiles d))) = Data p →
  profiles d !! pid p = Some (pcols p) ∧ Some (account_number p) = number.
Proof.
  intros H%single_inv.
  assert ((pid p, pcols p) ∈ map_to_list
            (filter (λ kc : nat * profile_cols, Some (account_number kc.2) = number)
               (profiles d))) as Hin by (rewrite H; left).
  apply elem_of_map_to_list, map_lookup_filter_Some in Hin. exact Hin.
Qed.

(** ** The single-account movement *)

(** C5. Whenever the validator rejects the inputs of [createTransaction]
    (inactive account, bad direction, non-positive amount, bad category,
    account not loaded, or a debit larger than the loaded balance), the
    handler answers with the error of that check, leaves the store as it
    was and issues no write. *)
Theorem createTransaction_rejects_before_any_write
    (user : profile) (b : body) (e : env) (w : world) (v : verdict) :
  validator (is_active user) (b_type b) (b_amount b)
    (default "transfer" (b_transaction_type b)) (loaded_balance w (pid user)) = Some v →
  rejected (answer (createTransaction user b e w)) = true ∧
  code_of (answer (createTransaction user b e w)) = Some (verdict_code v) ∧
  final (createTransaction user b e w) = store w ∧
  writes_only (trace (createTransaction user b e w)) = [].
Proof.
  intros Hv. revert Hv. start_run.
  unfold createTransaction, validator, loaded_balance.
  run_handler; leaf; cbn;
    try match goal with H : (_ && _) = _ |- _ => rewrite H end;
    try discriminate; intros [= <-]; repeat split; by rewrite ?db_eta.
Qed.

Lemma createTransaction_rejects_before_any_write_witness :
  let run :=
    createTransaction xavier (movement "debit" (units 600) "withdrawal") noon
      (world_of bank []) in
  rejected (answer run) = true ∧ code_of (answer run) = Some "INSUFFICIENT_FUNDS" ∧
  final run = bank ∧ writes_only (trace run) = [].
Proof.
  apply (createTransaction_rejects_before_any_write xavier
           (movement "debit" (units 600) "withdrawal") noon (world_of bank [])
           InsufficientFunds).
  vm_compute. reflexivity.
Defined.

(** C4, as the code has it.  When the balance update of [createTransaction]
    fails, the answer is 400 "Transaction failed" with code
    TRANSACTION_FAILED whatever the compensating delete replied: the reply
    of the delete is not inspected. *)
Theorem createTransaction_hides_compensation_outcome
    (user : profile) (b : body) (e : env) (w : world) (deleted : bool) :
  ok <$> writes_only (trace (createTransaction user b e w)) = [true; false; deleted] →
  answer (createTransaction user b e w)
    = Rejected 400 "Transaction failed" (Some "TRANSACTION_FAILED").
Proof.
  start_run. unfold createTransaction.
  run_handler; leaf; cbn; intros Hok; try discriminate; reflexivity.
Qed.

Lemma createTransaction_hides_compensation_outcome_witness :
  answer (createTransaction xavier (movement "debit" (units 100) "withdrawal") noon
            (world_of bank [Done; Done; Failed "timeout"; Failed "timeout"]))
    = Rejected 400 "Transaction failed" (Some "TRANSACTION_FAILED").
Proof.
  apply (createTransaction_hides_compensation_outcome xavier
           (movement "debit" (units 100) "withdrawal") noon
           (world_of bank [Done; Done; Failed "timeout"; Failed "timeout"]) false).
  vm_compute. reflexivity.
Defined.

(** C4 as stated fails: with the balance update failing, the run whose
    compensating delete fails and the run whose delete succeeds answer
    alike, although the first leaves the movement in the ledger. *)
Lemma compensation_failure_is_collapsed :
  let run fs :=
    createTransaction xavier (movement "debit" (units 100) "withdrawal") noon
      (world_of bank fs) in
  let failed := run [Done; Done; Failed "timeout"; Failed "timeout"] in
  let undone := run [Done; Done; Failed "timeout"; Done] in
  ok <$> writes_only (trace failed) = [true; false; false] ∧
  ok <$> writes_only (trace undone) = [true; false; true] ∧
  List.length (transactions (final failed)) = 1%nat ∧
  final undone = bank ∧
  answer failed = answer undone ∧
  answer failed = Rejected 400 "Transaction failed" (Some "TRANSACTION_FAILED").
Proof. vm_compute. repeat split; reflexivity. Qed.

(** C8, as the code has it.  When the insert of the movement fails, for a
    uniqueness violation or anything else, [createTransaction] answers 400
    with the message of the store as it is and code TRANSACTION_FAILED; that
    insert is the only one it issued, and the store is left as it was. *)
Theorem createTransaction_surfaces_insert_error
    (user : profile) (b : body) (e : env) (w : world)
    (cols : transaction_cols) (message : string) :
  {| ev_call := InsertTransaction cols; ev_reply := StoreError message |}
    ∈ trace (createTransaction user b e w) →
  answer (createTransaction user b e w) = Rejected 400 message (Some "TRANSACTION_FAILED") ∧
  List.length (List.filter is_insert (trace (createTransaction user b e w))) = 1%nat ∧
  final (createTransaction user b e w) = store w.
Proof.
  start_run. unfold createTransaction.
  run_handler; leaf; cbn; rewrite ?elem_of_cons, ?elem_of_nil; intros Hin;
    repeat match goal with H : _ ∨ _ |- _ => destruct H end;
    try done; simplify_eq; repeat split; by rewrite ?db_eta.
Qed.

Lemma createTransaction_surfaces_insert_error_witness :
  let run :=
    createTransaction xavier (movement "debit" (units 100) "withdrawal") noon
      (world_of bank [Done; Failed duplicate_key]) in
  answer run = Rejected 400 duplicate_key (Some "TRANSACTION_FAILED") ∧
  List.length (List.filter is_insert (trace run)) = 1%nat ∧
  final run = bank.
Proof.
  apply (createTransaction_surfaces_insert_error xavier
           (movement "debit" (units 100) "withdrawal") noon
           (world_of bank [Done; Failed duplicate_key])
           {| user_id := 1; type := "debit"; amount := units 100;
              description := Some "cash"; to_account_number := None;
              transaction_type := Some "withdrawal";
              reference := Some "WIT-LOYW3V28-4FZYO8"; status := "completed" |}).
  apply (list_elem_of_lookup_2 _ 1%nat). vm_compute. reflexivity.
Defined.

(** C8 as stated fails: a uniqueness violation reported by the store on the
    insert is answered with the message of the store, after a single
    insert. *)
Lemma insert_is_not_retried :
  let run :=
    createTransaction xavier (movement "debit" (units 100) "withdrawal") noon
      (world_of bank [Done; Failed duplicate_key]) in
  answer run = Rejected 400 duplicate_key (Some "TRANSACTION_FAILED") ∧
  List.length (List.filter is_insert (trace run)) = 1%nat ∧
  transactions (final run) = [].
Proof. vm_compute. repeat split; reflexivity. Qed.

(** ** The two-account transfer *)

Lemma compensated_store (d : db) (k : nat) (c : profile_cols) (b : Z)
    (c1 c2 : transaction_cols) :
  profiles d !! k = Some c →
  let t1 := {| tid := next_tid (transactions d); tcols := c1 |} in
  let t2 := {| tid := next_tid (transactions d ++ [t1]); tcols := c2 |} in
  alter_profile (set_balance (balance c)) k
    {| profiles := alter (set_balance b) k (profiles d);
       transactions :=
         filter (λ t, tid t ≠ tid t2)
           (filter (λ t, tid t ≠ tid t1) ((transactions d ++ [t1]) ++ [t2])) |} = d.
Proof.
  intros Hk t1 t2. unfold alter_profile. cbn [profiles transactions].
  rewrite (update_then_restore _ _ _ _ Hk).
  subst t1 t2. rewrite delete_inserted_pair. apply db_eta.
Qed.

(** C1, as the code has it.  In [transfer], once a write has failed the
    handler answers with a failure, and the calls it issued after the failed
    write are the reversals of the writes that had succeeded, taken in the
    order in which those writes were made.  When the two inserts and the
    sender update succeed, the recipient update fails and the three
    compensating calls succeed, the store is back to what it was before the
    transfer: both movements are deleted, the sender's balance is restored
    and the recipient's balance is unchanged. *)
Theorem transfer_compensation (user : profile) (b : body) (w : world) :
  undoes_in_order (store w) (writes_only (trace (transfer user b w))) ∧
  (after_failure (writes_only (trace (transfer user b w))) ≠ None →
   rejected (answer (transfer user b w)) = true) ∧
  (ok <$> writes_only (trace (transfer user b w))
     = [true; true; true; false; true; true; true] →
   final (transfer user b w) = store w ∧
   answer (transfer user b w)
     = Rejected 400 "Failed to update recipient balance" (Some "TRANSACTION_FAILED")).
Proof.
  start_run. unfold transfer, undoes_in_order.
  run_handler; leaf; cbn; (split; [|split]);
    try (intros ? [= <-]; cbn);
    try match goal with H : profiles _ !! _ = Some _ |- _ => rewrite H end;
    try done; intros _; split; try reflexivity;
    by apply compensated_store.
Qed.

Lemma transfer_compensation_witness :
  let run :=
    transfer xavier (to_yvonne (units 150))
      (world_of bank [Done; Done; Done; Done; Done; Failed "timeout"]) in
  ok <$> writes_only (trace run) = [true; true; true; false; true; true; true] ∧
  final run = bank ∧
  answer run = Rejected 400 "Failed to update recipient balance" (Some "TRANSACTION_FAILED").
Proof.
  split; [vm_compute; reflexivity|].
  apply (transfer_compensation xavier (to_yvonne (units 150))
           (world_of bank [Done; Done; Done; Done; Done; Failed "timeout"])).
  vm_compute. reflexivity.
Defined.

(** C1 as stated fails.  With the recipient update failing, the handler
    deletes the debit movement, then the credit movement, then restores the
    sender's balance: the order of the writes, not its reverse.  And when a
    compensating call fails in turn, its write is not reversed: here the
    debit movement stays in the ledger. *)
Lemma compensation_order_is_not_reversed :
  let run :=
    transfer xavier (to_yvonne (units 150))
      (world_of bank [Done; Done; Done; Done; Done; Failed "timeout"]) in
  let stuck :=
    transfer xavier (to_yvonne (units 150))
      (world_of bank [Done; Done; Done; Done; Done; Failed "timeout"; Failed "timeout"]) in
  ok <$> writes_only (trace run) = [true; true; true; false; true; true; true] ∧
  ev_call <$> drop 4 (writes_only (trace run))
    = [DeleteTransaction 1; DeleteTransaction 2; UpdateBalance 1 (units 500)] ∧
  ¬ undoes_in_reverse bank (writes_only (trace run)) ∧
  ok <$> writes_only (trace stuck) = [true; true; true; false; false; true; true] ∧
  tid <$> transactions (final stuck) = [1%nat].
Proof.
  repeat split; try (vm_compute; reflexivity).
  intros H. unfold undoes_in_reverse in H. vm_compute in H.
  specialize (H _ eq_refl). discriminate H.
Qed.

Lemma delete_inserted_both (ts : list transaction) (c1 c2 : transaction_cols) :
  filter (λ t, tid t ≠ next_tid (ts ++ [{| tid := next_tid ts; tcols := c1 |}]))
    (filter (λ t, tid t ≠ next_tid ts)
       ((ts ++ [{| tid := next_tid ts; tcols := c1 |}])
          ++ [{| tid := next_tid (ts ++ [{| tid := next_tid ts; tcols := c1 |}]);
                 tcols := c2 |}])) = ts.
Proof. exact (delete_inserted_pair ts c1 c2). Qed.

(** What a transfer whose compensations succeed leaves behind: nothing, or
    the two legs and the two balance updates. *)
Lemma transfer_outcome (user : profile) (b : body) (w : world) :
  benign (trace (transfer user b w)) = true →
  (final (transfer user b w) = store w ∧ rejected (answer (transfer user b w)) = true) ∨
  (∃ sender recipient : profile,
      pid sender = pid user ∧
      profiles (store w) !! pid user = Some (pcols sender) ∧
      profiles (store w) !! pid recipient = Some (pcols recipient) ∧
      pid recipient ≠ pid user ∧
      Some (account_number recipient) = b_to_account_number b ∧
      answer (transfer user b w)
        = TransferCompleted
            {| tid := next_tid (transactions (store w));
               tcols := debit_leg (pid user) b |}
            (balance sender - b_amount b) ∧
      final (transfer user b w)
        = transferred (store w) (pid user) (pid recipient) sender recipient b).
Proof.
  start_run. unfold transfer.
  run_handler; leaf; cbn; intros Hb; try discriminate.
  all: try (left; split; [|reflexivity];
            first [ reflexivity | apply db_eta | by apply compensated_store
                  | by rewrite ?delete_inserted_both, ?delete_inserted, ?db_eta ]).
  all: right;
    match goal with
    | Hs : single _ = Data ?r, Hp : profiles _ !! pid ?u = Some ?c |- _ =>
        apply selected_by_number in Hs; destruct Hs as [Hr Hn];
        exists {| pid := pid u; pcols := c |}, r
    end;
    repeat split; try done; by apply Nat.eqb_neq.
Qed.

(** C3, as the code has it.  An account-route [transfer] in which every
    compensating call that is issued succeeds either adds exactly one debit
    movement on the sender and one credit movement on the recipient, each
    carrying the account number of the other party in [to_account_number],
    or leaves the ledger as it was. *)
Theorem transfer_writes_both_legs_or_none (user : profile) (b : body) (w : world) :
  benign (trace (transfer user b w)) = true →
  transactions (final (transfer user b w)) = transactions (store w) ∨
  ∃ (debit credit : transaction) (sender recipient : profile_cols) (r : nat),
    transactions (final (transfer user b w)) = transactions (store w) ++ [debit; credit] ∧
    profiles (store w) !! pid user = Some sender ∧
    profiles (store w) !! r = Some recipient ∧ r ≠ pid user ∧
    user_id debit = pid user ∧ type debit = "debit" ∧ amount debit = b_amount b ∧
    to_account_number debit = Some (account_number recipient) ∧
    user_id credit = r ∧ type credit = "credit" ∧ amount credit = b_amount b ∧
    to_account_number credit = Some (account_number sender).
Proof.
  intros Hb. destruct (transfer_outcome user b w Hb) as [[-> _]|H]; [by left|].
  destruct H as (sender & recipient & _ & Hs & Hr & Hne & Hn & _ & ->). right.
  eexists _, _, (pcols sender), (pcols recipient), (pid recipient).
  unfold transferred. cbn [transactions]. rewrite <- app_assoc. cbn [app].
  repeat split; try done.
Qed.

Lemma transfer_writes_both_legs_or_none_witness :
  let run := transfer xavier (to_yvonne (units 150)) (world_of bank [Done; Done; Done; Failed "timeout"]) in
  transactions (final run) = [] ∨
  ∃ (debit credit : transaction) (sender recipient : profile_cols) (r : nat),
    transactions (final run) = [] ++ [debit; credit] ∧
    profiles bank !! 1%nat = Some sender ∧
    profiles bank !! r = Some recipient ∧ r ≠ 1%nat ∧
    user_id debit = 1%nat ∧ type debit = "debit" ∧ amount debit = units 150 ∧
    to_account_number debit = Some (account_number recipient) ∧
    user_id credit = r ∧ type credit = "credit" ∧ amount credit = units 150 ∧
    to_account_number credit = Some (account_number sender).
Proof.
  apply (transfer_writes_both_legs_or_none xavier (to_yvonne (units 150))
           (world_of bank [Done; Done; Done; Failed "timeout"])).
  vm_compute. reflexivity.
Defined.

(** C3 as stated fails on both routes.  The transactions-route
    [createTransfer] debits the sender and writes the debit movement only:
    no movement is recorded for the recipient, whose balance stays.  And an
    account-route [transfer] whose credit insert fails and whose compensating
    delete fails too leaves the debit movement alone in the ledger. *)
Lemma transfer_may_write_one_leg :
  let single_leg :=
    handle (POST_transactions_transfer (Token 1) (to_yvonne (units 150))) noon
      (world_of bank []) in
  let stuck :=
    transfer xavier (to_yvonne (units 150))
      (world_of bank [Done; Done; Done; Failed "timeout"; Failed "timeout"]) in
  rejected (answer single_leg) = false ∧
  (λ t : transaction, (user_id t, type t, amount t, to_account_number t))
    <$> transactions (final single_leg)
    = [(1%nat, "debit", units 150, Some "RS0000000002")] ∧
  balance <$> profiles (final single_leg) !! 1%nat = Some (units 350) ∧
  balance <$> profiles (final single_leg) !! 2%nat = Some (units 200) ∧
  rejected (answer stuck) = true ∧
  (λ t : transaction, (user_id t, type t, amount t)) <$> transactions (final stuck)
    = [(1%nat, "debit", units 150)].
Proof. vm_compute. repeat split; reflexivity. Qed.

(** C6, on the code.  The account-route transfer of 150.00 from X (500.00)
    to Y (200.00) with every store call succeeding records a debit of 150.00
    against X and a credit of 150.00 against Y and leaves both balances at
    350.00; the debit movement is written without a reference, so it has no
    reference starting with TRA-. *)
Theorem transfer_500_200_150 :
  let run :=
    handle (POST_accounts_transfer (Token 1) (to_yvonne (units 150))) noon
      (world_of bank []) in
  ∃ debit credit : transaction,
    answer run = TransferCompleted debit (units 350) ∧
    forallb ok (trace run) = true ∧
    transactions (final run) = [debit; credit] ∧
    (user_id debit, type debit, amount debit) = (1%nat, "debit", units 150) ∧
    (user_id credit, type credit, amount credit) = (2%nat, "credit", units 150) ∧
    balance <$> profiles (final run) !! 1%nat = Some (units 350) ∧
    balance <$> profiles (final run) !! 2%nat = Some (units 350) ∧
    reference debit = None ∧ transaction_type debit = None.
Proof. vm_compute. eexists _, _. repeat split; reflexivity. Qed.

(** ** The ledger invariant along a history *)

Lemma run_eq {A} (m : Store A) (w : world) (a : A) (w' : world) (evs : list event) :
  m w = (a, w', evs) → answer (m w) = a ∧ final (m w) = store w' ∧ trace (m w) = evs.
Proof. intros ->. done. Qed.

(** The ledger invariant is kept by each handler, by each route and by a
    history, for any choice of opening balances. *)
Section Invariant.

Variable opening : nat → Z.

Lemma preserves_refl (d : db) : preserves opening d d.
Proof. by split. Qed.

Lemma createTransaction_preserves (user : profile) (b : body) (e : env) (w : world) :
  benign (trace (createTransaction user b e w)) = true →
  preserves opening (store w) (final (createTransaction user b e w)).
Proof.
  start_run. unfold createTransaction, preserves.
  run_handler; leaf; cbn; intros Hb; try discriminate;
    rewrite ?delete_inserted, ?db_eta; try done.
  all: unfold alter_profile; cbn [profiles transactions]; (split; [|by rewrite dom_alter_L]).
  all: intros Hd.
  all: match goal with
       | |- context [calculateNewBalance ?c ?a ?s] =>
           match goal with
           | |- context [transactions _ ++ [?t]] =>
               replace (calculateNewBalance c a s) with (c + signed t)
                 by (symmetry; apply (calculateNewBalance_signed c t); cbn;
                     by apply includes_direction)
           end
       end.
  all: by apply posting_consistent.
Qed.

Lemma transfer_preserves (user : profile) (b : body) (w : world) :
  benign (trace (transfer user b w)) = true →
  preserves opening (store w) (final (transfer user b w)).
Proof.
  intros Hb. destruct (transfer_outcome user b w Hb) as [[-> _]|H]; [apply preserves_refl|].
  destruct H as (sender & recipient & _ & Hs & Hr & Hne & _ & _ & ->).
  unfold transferred. split; cbn [profiles transactions].
  2:{ by rewrite !dom_alter_L. }
  intros Hd.
  set (td := {| tid := next_tid (transactions (store w)); tcols := debit_leg (pid user) b |}).
  set (tc := {| tid := next_tid (transactions (store w) ++ [td]);
                tcols := credit_leg (pid recipient) (account_number sender) b |}).
  pose proof (posting_consistent opening (store w) (pid user) sender td Hd Hs eq_refl eq_refl) as H1.
  replace (balance sender + signed td) with (balance sender - b_amount b) in H1
    by (unfold signed; cbn; lia).
  assert (profiles {| profiles := alter (set_balance (balance sender - b_amount b)) (pid user) (profiles (store w));
                      transactions := transactions (store w) ++ [td] |} !! pid recipient
          = Some (pcols recipient)) as Hr1.
  { cbn [profiles]. by rewrite lookup_alter_ne. }
  pose proof (posting_consistent opening _ (pid recipient) recipient tc H1 Hr1 eq_refl eq_refl) as H2.
  replace (balance recipient + signed tc) with (balance recipient + b_amount b) in H2
    by (unfold signed; cbn; lia).
  exact H2.
Qed.

Lemma handle_preserves (r : request) (e : env) (w : world) :
  money_movement r = true →
  benign (trace (handle r e w)) = true →
  preserves opening (store w) (final (handle r e w)).
Proof.
  intros Hm. start_run.
  destruct r; try discriminate Hm; clear Hm;
    unfold handle, active_route, authenticateToken, requireActiveAccount,
      createWithdrawal, createTransfer, createDeposit;
    destruct c.
  all: run_handler; leaf; cbn [store]; intros Hb; try apply preserves_refl.
  all: match goal with
       | H : ?f ?w0 = (_, _, _) |- _ =>
           apply run_eq in H; destruct H as (_ & Hf & Ht);
           cbn [store] in Hf; rewrite <- Hf;
           lazymatch f with
           | createTransaction ?u ?b ?e => apply (createTransaction_preserves u b e w0)
           | transfer ?u ?b => apply (transfer_preserves u b w0)
           end;
           rewrite Ht; exact Hb
       end.
Qed.

Lemma run_preserves (h : list (request * env)) (w : world) :
  forallb (λ re : request * env, money_movement re.1) h = true →
  forallb (λ rt : response * list event, benign rt.2) (run h w).1 = true →
  preserves opening (store w) (store (run h w).2).
Proof.
  revert w. induction h as [|[r e] h IH]; intros w Hm Hb; [apply preserves_refl|].
  cbn in Hm. apply andb_prop in Hm as [Hr Hh].
  cbn [run] in *.
  pose proof (handle_preserves r e w Hr) as H1. unfold final, trace in H1.
  destruct (handle r e w) as [[resp w1] evs]. cbn [fst snd] in *.
  specialize (IH w1 Hh).
  destruct (run h w1) as [rest w2]. cbn [fst snd forallb] in *.
  apply andb_prop in Hb as [Hb1 Hb2].
  destruct (H1 Hb1) as [Hc1 Hd1], (IH Hb2) as [Hc2 Hd2].
  split; [tauto|congruence].
Qed.

End Invariant.

(** ** References *)

Lemma upper_digit36 (c : ascii) :
  is_digit36 c = true →
  lower_ascii (Js.upper_ascii c) = c ∧ Ascii.eqb (Js.upper_ascii c) "-" = false.
Proof.
  destruct c as [[] [] [] [] [] [] [] []]; vm_compute; intros H;
    first [discriminate H | split; reflexivity].
Qed.

Lemma toUpperCase_app (s1 s2 : string) :
  Js.toUpperCase (s1 +:+ s2) = Js.toUpperCase s1 +:+ Js.toUpperCase s2.
Proof. induction s1 as [|c s1 IH]; simpl; [done|]. by rewrite IH. Qed.

Lemma toUpperCase_injective (s1 s2 : string) :
  all_digit36 s1 = true → all_digit36 s2 = true →
  Js.toUpperCase s1 = Js.toUpperCase s2 → s1 = s2.
Proof.
  revert s2. induction s1 as [|c1 s1 IH]; intros [|c2 s2]; cbn; try done.
  intros [H1 Hs1]%andb_prop [H2 Hs2]%andb_prop [= Hc Hs].
  f_equal; [|by apply IH].
  apply upper_digit36 in H1 as [<- _], H2 as [<- _]. by rewrite Hc.
Qed.

Lemma toUpperCase_no_dash (s : string) :
  all_digit36 s = true → has_dash (Js.toUpperCase s) = false.
Proof.
  induction s as [|c s IH]; cbn; [done|].
  intros [Hc Hs]%andb_prop. apply upper_digit36 in Hc as [_ ->]. by apply IH.
Qed.

Lemma split_at_dash (a1 a2 b1 b2 : string) :
  has_dash a1 = false → has_dash a2 = false →
  a1 +:+ String "-" b1 = a2 +:+ String "-" b2 → a1 = a2 ∧ b1 = b2.
Proof.
  revert a2. induction a1 as [|c1 a1 IH]; intros [|c2 a2]; cbn.
  - by intros _ _ [= ->].
  - intros _ [H _]%orb_false_elim [= <- _]. done.
  - intros [H _]%orb_false_elim _ [= -> _]. done.
  - intros [_ H1]%orb_false_elim [_ H2]%orb_false_elim [= -> Hr].
    destruct (IH a2 H1 H2 Hr) as [-> ->]. done.
Qed.

Lemma append_cons (c : ascii) (s1 s2 : string) :
  String c s1 +:+ s2 = String c (s1 +:+ s2).
Proof. reflexivity. Qed.

Lemma append_assoc (s1 s2 s3 : string) : (s1 +:+ s2) +:+ s3 = s1 +:+ (s2 +:+ s3).
Proof. induction s1 as [|c s1 IH]; [done|]. by rewrite !append_cons, IH. Qed.

Lemma append_empty (s : string) : s +:+ "" = s.
Proof. induction s as [|c s IH]; [done|]. by rewrite append_cons, IH. Qed.

Lemma all_digit36_app (s1 s2 : string) :
  all_digit36 (s1 +:+ s2) = all_digit36 s1 && all_digit36 s2.
Proof. induction s1 as [|c s1 IH]; simpl; [done|]. by rewrite IH, andb_assoc. Qed.

Lemma value_from_app (v : N) (s1 s2 : string) :
  value_from v (s1 +:+ s2) = value_from (value_from v s1) s2.
Proof. revert v. induction s1 as [|c s1 IH]; intros v; simpl; [done|]. apply IH. Qed.

Lemma digit36_spec (d : N) :
  (d < 36)%N → is_digit36 (Js.digit36 d) = true ∧ value36 (Js.digit36 d) = d.
Proof.
  intros H. assert (∃ k : nat, (k < 36)%nat ∧ d = N.of_nat k) as (k & Hk & ->).
  { exists (N.to_nat d). split; lia. }
  do 36 (destruct k as [|k]; [by vm_compute|]). lia.
Qed.

(** The loop writes, in front of [acc], a numeral of [n]. *)
Lemma toString36_loop_spec (fuel : nat) (n : N) (acc : string) :
  (n < 2 ^ N.of_nat fuel)%N →
  ∃ digits : string,
    Js.toString36_loop fuel n acc = digits +:+ acc ∧
    all_digit36 digits = true ∧ value_from 0 digits = n.
Proof.
  revert n acc. induction fuel as [|fuel IH]; intros n acc Hn.
  - exists "". cbn in *. repeat split. lia.
  - cbn [Js.toString36_loop].
    assert (n mod 36 < 36)%N as Hd by (apply N.mod_lt; lia).
    destruct (digit36_spec _ Hd) as [Hv1 Hv2].
    destruct (N.eqb_spec (n / 36) 0) as [Hz|Hz].
    + exists (String (Js.digit36 (n mod 36)) ""). cbn. rewrite Hv1, Hv2.
      repeat split. pose proof (N.div_mod n 36). lia.
    + destruct (IH (n / 36)%N (String (Js.digit36 (n mod 36)) acc)) as (ds & -> & Ha & Hv).
      { apply N.Div0.div_lt_upper_bound.
        rewrite Nat2N.inj_succ, N.pow_succ_r' in Hn. lia. }
      exists (ds +:+ String (Js.digit36 (n mod 36)) "").
      rewrite append_assoc, append_cons.
      rewrite all_digit36_app, value_from_app, Ha, Hv. cbn. rewrite Hv1, Hv2.
      repeat split. pose proof (N.div_mod n 36). lia.
Qed.

Lemma toString36_spec (n : N) :
  all_digit36 (Js.toString36 n) = true ∧ value_from 0 (Js.toString36 n) = n.
Proof.
  unfold Js.toString36.
  destruct (toString36_loop_spec (S (N.to_nat (N.log2 n))) n "") as (ds & -> & Ha & Hv).
  - rewrite Nat2N.inj_succ, N2Nat.id.
    destruct n as [|p]; [done|]. apply N.log2_spec. lia.
  - by rewrite append_empty.
Qed.

Lemma toString36_injective (n1 n2 : N) :
  Js.toUpperCase (Js.toString36 n1) = Js.toUpperCase (Js.toString36 n2) → n1 = n2.
Proof.
  destruct (toString36_spec n1) as [Ha1 Hv1], (toString36_spec n2) as [Ha2 Hv2].
  intros H%toUpperCase_injective; [|done..]. congruence.
Qed.

Lemma generateReference_unfold (c : string) (n : N) (r : string) :
  generateReference c n r
  = Js.toUpperCase (substring 0 3 (Js.toUpperCase c))
    +:+ String "-" (Js.toUpperCase (Js.toString36 n)
                    +:+ String "-" (Js.toUpperCase (substring 2 6 r))).
Proof. unfold generateReference. rewrite !toUpperCase_app. reflexivity. Qed.

Lemma valid_category_cases (c : string) :
  valid_category c = true →
  c = "transfer" ∨ c = "withdrawal" ∨ c = "deposit" ∨ c = "payment" ∨ c = "refund".
Proof.
  unfold valid_category, Js.includes, existsb.
  rewrite !orb_true_iff, !String.eqb_eq. intros H. destruct_or!; try tauto. done.
Qed.

Lemma generateReference_injective (c1 c2 : string) (n1 n2 : N) (r1 r2 : string) :
  valid_category c1 = true → valid_category c2 = true →
  all_digit36 (substring 2 6 r1) = true → all_digit36 (substring 2 6 r2) = true →
  generateReference c1 n1 r1 = generateReference c2 n2 r2 →
  c1 = c2 ∧ n1 = n2 ∧ substring 2 6 r1 = substring 2 6 r2.
Proof.
  intros V1%valid_category_cases V2%valid_category_cases D1 D2 H.
  rewrite !generateReference_unfold in H.
  apply split_at_dash in H as [HP H].
  2, 3: by destruct_or!; subst.
  apply split_at_dash in H as [HT HR].
  2, 3: apply toUpperCase_no_dash, toString36_spec.
  split; [|split].
  - destruct_or!; subst; first [reflexivity | discriminate HP].
  - by apply toString36_injective.
  - by apply toUpperCase_injective.
Qed.

(** C7, as the code has it.  Every movement that [createTransaction] inserts
    carries the reference [generateReference] makes of its category, the
    clock and the random draw; two such movements carry the same reference
    exactly when category, millisecond and random suffix all coincide. *)
Theorem movement_references
    (u1 u2 : profile) (b1 b2 : body) (e1 e2 : env) (w1 w2 : world)
    (c1 c2 : transaction_cols) :
  InsertTransaction c1 ∈ ev_call <$> trace (createTransaction u1 b1 e1 w1) →
  InsertTransaction c2 ∈ ev_call <$> trace (createTransaction u2 b2 e2 w2) →
  all_digit36 (substring 2 6 (random36 e1)) = true →
  all_digit36 (substring 2 6 (random36 e2)) = true →
  reference c1 = Some (generateReference (category b1) (now e1) (random36 e1)) ∧
  reference c2 = Some (generateReference (category b2) (now e2) (random36 e2)) ∧
  (reference c1 = reference c2 ↔
   category b1 = category b2 ∧ now e1 = now e2 ∧
   substring 2 6 (random36 e1) = substring 2 6 (random36 e2)).
Proof.
  assert (∀ u b e w c,
    InsertTransaction c ∈ ev_call <$> trace (createTransaction u b e w) →
    reference c = Some (generateReference (category b) (now e) (random36 e)) ∧
    valid_category (category b) = true) as Hins.
  { intros u b e w c. start_run. unfold createTransaction, category, valid_category.
    run_handler; leaf; cbn; rewrite ?elem_of_cons, ?elem_of_nil; intros Hin;
      repeat match goal with H : _ ∨ _ |- _ => destruct H end;
      try done; simplify_eq; cbn; split; try done;
      by apply negb_false_iff. }
  intros [H1 V1]%Hins [H2 V2]%Hins D1 D2. rewrite H1, H2.
  split; [done|]. split; [done|]. split.
  - intros [= Heq]. by apply generateReference_injective in Heq.
  - intros (Hc & Hn & Hr). f_equal. rewrite !generateReference_unfold. congruence.
Qed.

Lemma movement_references_witness :
  reference (deposit_row "DEP-LOYW3V28-4FZYO8")
    = Some (generateReference "deposit" 1700000000000 "0.4fzyo82mvyr") ∧
  reference (deposit_row "DEP-LOYW3V29-K3J9X1")
    = Some (generateReference "deposit" 1700000000001 "0.k3j9x1a7pq") ∧
  (reference (deposit_row "DEP-LOYW3V28-4FZYO8")
     = reference (deposit_row "DEP-LOYW3V29-K3J9X1") ↔
   "deposit" = "deposit" ∧ 1700000000000%N = 1700000000001%N ∧
   substring 2 6 "0.4fzyo82mvyr" = substring 2 6 "0.k3j9x1a7pq").
Proof.
  apply (movement_references xavier xavier
           (movement "credit" (units 50) "deposit") (movement "credit" (units 50) "deposit")
           noon a_moment_later (world_of bank []) (world_of bank [])).
  - apply (list_elem_of_lookup_2 _ 1%nat). vm_compute. reflexivity.
  - apply (list_elem_of_lookup_2 _ 1%nat). vm_compute. reflexivity.
  - vm_compute. reflexivity.
  - vm_compute. reflexivity.
Defined.

(** C7 as stated fails.  Two deposits handled in the same millisecond with
    the same random draw are recorded under one reference, and nothing
    rejects the second; and the two legs that the account-route [transfer]
    writes carry no reference at all. *)
Lemma references_collide_or_are_absent :
  let twice :=
    run [ (POST_transactions_deposit (Token 1) (movement "credit" (units 50) "deposit"), noon);
          (POST_transactions_deposit (Token 2) (movement "credit" (units 70) "deposit"), noon) ]
      (world_of bank []) in
  let legs := transfer xavier (to_yvonne (units 150)) (world_of bank []) in
  rejected <$> twice.1.*1 = [false; false] ∧
  (λ t : transaction, reference t) <$> transactions (store twice.2)
    = [Some "DEP-LOYW3V28-4FZYO8"; Some "DEP-LOYW3V28-4FZYO8"] ∧
  rejected (answer legs) = false ∧
  (λ t : transaction, reference t) <$> transactions (final legs) = [None; None].
Proof. vm_compute. repeat split; reflexivity. Qed.

(** ** Activation *)

Lemma signup_creates_inactive (b : signup_body) (e : env) (w : world) (u : profile) :
  answer (signup b e w) = SignedUp u →
  profiles (store w) !! pid u = None ∧
  profiles (final (signup b e w)) !! pid u = Some (pcols u) ∧
  balance u = units 100000 ∧ is_active u = false.
Proof.
  start_run. unfold signup.
  run_handler; leaf; cbn [pid pcols]; intros [= <-]; cbn [pid pcols balance is_active].
  all: repeat split; try apply lookup_insert_eq;
    apply not_elem_of_dom, is_fresh.
Qed.

Lemma inactive_caller_is_rejected (r : request) (e : env) (w : world) (A : nat)
    (c : profile_cols) :
  money_movement r = true →
  caller r = Some (Token A) →
  profiles (store w) !! A = Some c →
  is_active c = false →
  rejected (answer (handle r e w)) = true ∧
  final (handle r e w) = store w ∧
  writes_only (trace (handle r e w)) = [] ∧
  (hd Done (faults w) = Done →
   code_of (answer (handle r e w)) = Some "ACCOUNT_INACTIVE").
Proof.
  intros Hm Hc HA Hf. start_run. cbn [store] in HA.
  assert (negb (is_active c) = true) as Hn by (by rewrite Hf).
  destruct r; try discriminate Hm; cbn in Hc; injection Hc as ->;
    unfold handle, active_route, authenticateToken, requireActiveAccount.
  all: run_handler; leaf; cbn; repeat split; try done.
Qed.

Ltac trace_flag H :=
  repeat match type of H with
  | alter _ _ _ !! _ = Some _ =>
      apply lookup_alter_Some in H as [(? & ? & H & ->)|[? H]]
  | <[_ := _]> _ !! _ = Some _ =>
      apply lookup_insert_Some in H as [[? <-]|[? H]]
  end.

(** X25. A request that turns the flag of an account from false to true
    is one of the two activation requests for that account, [PATCH
    /auth/activate/:userId] or [POST /admin/users/:userId/activate]: no
    money movement, signup, deactivation or balance adjustment activates an
    account, whatever the store answers. *)
Lemma only_activation_activates (r : request) (e : env) (w : world) (A : nat)
    (c c' : profile_cols) :
  profiles (store w) !! A = Some c → is_active c = false →
  profiles (final (handle r e w)) !! A = Some c' → is_active c' = true →
  activates r A = true.
Proof.
  intros HA Hf. start_run. cbn [store] in HA. intros Hrun; revert HA; revert Hrun.
  destruct r;
    unfold handle, active_route, admin_route, authenticateToken, requireActiveAccount,
      requireAdmin, createWithdrawal, createTransfer, createDeposit, createTransaction,
      transfer, signup, activateAccount, admin_activate, admin_deactivate, admin_balance;
    try destruct c0.
  all: run_handler; leaf; cbn [store profiles]; intros HA HA' Hf'.
  all: try congruence.
  all: cbn [store profiles alter_profile] in HA'; trace_flag HA';
    unfold ACCOUNT_STATUS.INACTIVE in *;
    cbn [activates is_active set_balance set_active set_number] in *;
    repeat match goal with H : (_ =? _)%nat = false |- _ => apply Nat.eqb_neq in H end;
    try congruence; try (apply Nat.eqb_eq; congruence).
Qed.

Lemma only_activation_activates_witness :
  activates (PATCH_auth_activate (Token 3) 3) 3 = true.
Proof.
  apply (only_activation_activates (PATCH_auth_activate (Token 3) 3) noon
           (world_of bank []) 3
           (customer "zoe" "RS0000000003" (units 100000) false)
           (set_active true (customer "zoe" "RS0000000003" (units 100000) false)));
    vm_compute; reflexivity.
Defined.

(** * Further properties *)

(** ** The ledger is append-only *)

Lemma delete_keeps_old (ts new : list transaction) (n : nat) :
  (∀ t, t ∈ ts → tid t ≠ n) →
  filter (λ t, tid t ≠ n) (ts ++ new) = ts ++ filter (λ t, tid t ≠ n) new.
Proof. intros H. by rewrite filter_app, delete_fresh. Qed.

Lemma delete_first_keeps_old (ts new : list transaction) :
  filter (λ t, tid t ≠ next_tid ts) (ts ++ new)
  = ts ++ filter (λ t, tid t ≠ next_tid ts) new.
Proof. apply delete_keeps_old, next_tid_fresh. Qed.

Lemma delete_second_keeps_old (ts new : list transaction) (t1 : transaction) :
  filter (λ t, tid t ≠ next_tid (ts ++ [t1])) (ts ++ new)
  = ts ++ filter (λ t, tid t ≠ next_tid (ts ++ [t1])) new.
Proof.
  apply delete_keeps_old. intros t Ht.
  apply (next_tid_fresh (ts ++ [t1]) t), elem_of_app. by left.
Qed.

Ltac unfold_handlers :=
  unfold handle, active_route, admin_route, authenticateToken, requireActiveAccount,
    requireAdmin, createWithdrawal, createTransfer, createDeposit, createTransaction,
    transfer, signup, activateAccount, admin_activate, admin_deactivate, admin_balance.

(** X1. Whatever the request and whichever store calls fail, the movements
    that were in the ledger before the request are all still there, unchanged
    and in the same order, after it: a handler only appends movements and only
    deletes movements it has itself just inserted. *)
Theorem ledger_is_append_only (r : request) (e : env) (w : world) :
  transactions (store w) `prefix_of` transactions (final (handle r e w)).
Proof.
  start_run. destruct r; unfold_handlers; try destruct c.
  all: run_handler; leaf; cbn [store transactions];
    rewrite <- ?app_assoc;
    rewrite ?delete_first_keeps_old, ?delete_second_keeps_old;
    first [ reflexivity | by eexists ].
Qed.

(** ** Solvency *)

Lemma nonnegative_after_update (m : gmap nat profile_cols) (k : nat) (b : Z) :
  0 ≤ b →
  (∀ A c, m !! A = Some c → 0 ≤ balance c) →
  ∀ A c, alter (set_balance b) k m !! A = Some c → 0 ≤ balance c.
Proof.
  intros Hb Hm A c [(<- & c0 & _ & ->)|[_ H]]%lookup_alter_Some; [done|].
  by apply (Hm A).
Qed.

Ltac arith_facts :=
  repeat match goal with
  | H : (_ <=? _) = false |- _ => apply Z.leb_gt in H
  | H : (_ <? _) = false |- _ => apply Z.ltb_ge in H
  | H : single _ = Data _ |- _ => apply selected_by_number in H as [H ?]
  | Hs : solvent ?d, H : profiles ?d !! _ = Some ?c |- _ =>
      lazymatch goal with
      | _ : 0 ≤ balance c |- _ => fail
      | _ => pose proof (Hs _ _ H)
      end
  end.

Lemma createTransaction_solvent (user : profile) (b : body) (e : env) (w : world) :
  solvent (store w) → solvent (final (createTransaction user b e w)).
Proof.
  intros Hs. start_run. cbn [store] in Hs. unfold createTransaction.
  run_handler; leaf; cbn [store]; try done.
  all: unfold solvent; cbn [profiles]; arith_facts; try (by apply Hs).
  all: apply nonnegative_after_update; [|by apply Hs].
  all: match goal with H : negb (Js.includes _ _) = false |- _ =>
         apply includes_direction in H as [-> | ->] end;
    unfold calculateNewBalance; cbn in *; arith_facts; lia.
Qed.

Lemma transfer_solvent (user : profile) (b : body) (w : world) :
  solvent (store w) → solvent (final (transfer user b w)).
Proof.
  intros Hs. start_run. cbn [store] in Hs. unfold transfer.
  run_handler; leaf; cbn [store]; try done.
  all: unfold solvent; cbn [profiles]; arith_facts; cbn [pcols] in *.
  all: repeat (apply nonnegative_after_update; [lia|]); by apply Hs.
Qed.

Lemma handle_solvent (r : request) (e : env) (w : world) :
  money_movement r = true →
  solvent (store w) → solvent (final (handle r e w)).
Proof.
  intros Hm Hs. start_run. cbn [store] in Hs.
  destruct r; try discriminate Hm; clear Hm;
    unfold handle, active_route, authenticateToken, requireActiveAccount,
      createWithdrawal, createTransfer, createDeposit;
    destruct c.
  all: run_handler; leaf; cbn [store]; try done.
  all: match goal with
       | H : ?f ?w0 = (_, _, _) |- _ =>
           apply run_eq in H; destruct H as (_ & Hf & _);
           cbn [store] in Hf; rewrite <- Hf;
           lazymatch f with
           | createTransaction ?u ?b ?e => apply (createTransaction_solvent u b e w0)
           | transfer ?u ?b => apply (transfer_solvent u b w0)
           end;
           exact Hs
       end.
Qed.

(** X2. Handled one after the other, money-movement requests never overdraw
    an account, whichever store calls fail and whether or not compensation
    succeeds: if no balance is negative before a history, none is after it. *)
Theorem never_overdrawn (h : list (request * env)) (w : world) :
  forallb (λ re : request * env, money_movement re.1) h = true →
  solvent (store w) →
  solvent (store (run h w).2).
Proof.
  revert w. induction h as [|[r e] h IH]; intros w Hm Hs; [done|].
  cbn in Hm. apply andb_prop in Hm as [Hr Hh]. cbn [run].
  pose proof (handle_solvent r e w Hr Hs) as H1. unfold final in H1.
  destruct (handle r e w) as [[resp w1] evs]. cbn [fst snd] in *.
  specialize (IH w1 Hh H1). by destruct (run h w1) as [rest w2].
Qed.

(** ** Which rows a movement touches *)

Lemma solvent_bank : solvent bank.
Proof.
  intros A c H. unfold bank in H. cbn [profiles] in H.
  repeat (apply lookup_insert_Some in H as [[_ <-]|[_ H]]; [by vm_compute|]).
  by rewrite lookup_empty in H.
Qed.

Lemma never_overdrawn_witness :
  solvent (store (run afternoon (world_of bank afternoon_faults)).2).
Proof.
  apply (never_overdrawn afternoon (world_of bank afternoon_faults)).
  - vm_compute. reflexivity.
  - exact solvent_bank.
Defined.

Lemma same_but_balance_refl (c : profile_cols) : same_but_balance c c.
Proof. by destruct c. Qed.

Lemma same_but_balance_set (b : Z) (c : profile_cols) : same_but_balance c (set_balance b c).
Proof. by destruct c. Qed.

Lemma createTransaction_touch (user : profile) (b : body) (e : env) (w : world) :
  (∀ A, A ≠ pid user →
     profiles (final (createTransaction user b e w)) !! A = profiles (store w) !! A) ∧
  (∀ c', profiles (final (createTransaction user b e w)) !! pid user = Some c' →
     ∃ c, profiles (store w) !! pid user = Some c ∧ same_but_balance c c').
Proof.
  start_run. unfold createTransaction.
  run_handler; leaf; cbn [store profiles alter_profile]; split.
  all: try (by intros; rewrite ?lookup_alter_ne by done).
  all: intros c'; rewrite ?lookup_alter_eq;
    repeat match goal with H : profiles _ !! _ = _ |- _ => rewrite H end.
  all: try (intros Hc'; eexists; split; [done|]; apply same_but_balance_refl).
  all: cbn; intros [= <-]; eexists; split; [done|]; apply same_but_balance_set.
Qed.

(** X3. Each single-account handler (the generic movement and its
    withdrawal, transfer and deposit presets) changes no row of [profiles]
    but the caller's, and in the caller's row no column but the balance,
    whichever store calls fail.  In particular the transfer preset never
    credits the account named in [to_account_number]. *)
Theorem movement_touches_only_the_caller
    (handler : profile → body → env → Store response)
    (user : profile) (b : body) (e : env) (w : world) :
  handler ∈ movement_handlers →
  (∀ A, A ≠ pid user →
     profiles (final (handler user b e w)) !! A = profiles (store w) !! A) ∧
  (∀ c', profiles (final (handler user b e w)) !! pid user = Some c' →
     ∃ c, profiles (store w) !! pid user = Some c ∧ same_but_balance c c').
Proof.
  unfold movement_handlers. rewrite !elem_of_cons, elem_of_nil.
  intros [->|[->|[->|[->|[]]]]].
  - apply createTransaction_touch.
  - apply createTransaction_touch.
  - unfold createTransfer. destruct (negb _); [|apply createTransaction_touch].
    unfold final, ret. cbn. split; [done|]. intros c' ->. eexists. split; [done|].
    apply same_but_balance_refl.
  - apply createTransaction_touch.
Qed.

Lemma movement_touches_only_the_caller_witness :
  profiles (final (createTransfer xavier (to_yvonne (units 150)) noon (world_of bank [])))
    !! 2%nat = profiles bank !! 2%nat.
Proof.
  apply (movement_touches_only_the_caller createTransfer xavier (to_yvonne (units 150))
           noon (world_of bank [])).
  - unfold movement_handlers. right. right. left.
  - discriminate.
Defined.

(** X4. The account-route [transfer] changes no row of [profiles] other than
    the sender's and the row whose account number is [to_account_number],
    whichever store calls fail. *)
Theorem transfer_touches_only_the_parties
    (user : profile) (b : body) (w : world) (A : nat) (c : profile_cols) :
  profiles (store w) !! A = Some c →
  A ≠ pid user →
  Some (account_number c) ≠ b_to_account_number b →
  profiles (final (transfer user b w)) !! A = Some c.
Proof.
  intros HA Hu Hn. start_run. cbn [store] in HA. unfold transfer.
  run_handler; leaf; cbn [store profiles alter_profile]; try done.
  all: arith_facts;
    match goal with
    | Hd : profiles _ !! pid ?data = Some (pcols ?data) |- _ =>
        assert (A ≠ pid data) by (intros ->; rewrite Hd in HA; congruence)
    end;
    by rewrite ?lookup_alter_ne by done.
Qed.

Lemma transfer_touches_only_the_parties_witness :
  profiles (final (transfer xavier (to_yvonne (units 150)) (world_of bank [])))
    !! 3%nat = Some (customer "zoe" "RS0000000003" (units 100000) false).
Proof.
  apply (transfer_touches_only_the_parties xavier (to_yvonne (units 150))
           (world_of bank []) 3 (customer "zoe" "RS0000000003" (units 100000) false));
    by vm_compute.
Defined.

(** ** What a movement does when it completes, and when it is undone *)

(** On a body whose amount is a number: when the validator accepts the
    inputs of [createTransaction] and every store call of the run succeeds,
    the movement is appended to the ledger with the fields of the request,
    a generated reference and status completed, and the caller's balance
    becomes [calculateNewBalance] of the balance that was loaded. *)
Lemma typed_createTransaction_completes
    (user : profile) (b : body) (e : env) (w : world) :
  validator (is_active user) (b_type b) (b_amount b) (category b)
    (loaded_balance w (pid user)) = None →
  forallb ok (trace (createTransaction user b e w)) = true →
  ∃ (type : string) (current : Z),
    b_type b = Some type ∧ loaded_balance w (pid user) = Some current ∧
    let t := {| tid := next_tid (transactions (store w));
                tcols := {| user_id := pid user; type := type; amount := b_amount b;
                            description := b_description b;
                            to_account_number := b_to_account_number b;
                            transaction_type := Some (category b);
                            reference :=
                              Some (generateReference (category b) (now e) (random36 e));
                            status := "completed" |} |} in
    answer (createTransaction user b e w)
      = TransactionCreated t (calculateNewBalance current (b_amount b) type) ∧
    transactions (final (createTransaction user b e w)) = transactions (store w) ++ [t] ∧
    balance <$> profiles (final (createTransaction user b e w)) !! pid user
      = Some (calculateNewBalance current (b_amount b) type).
Proof.
  intros Hv. revert Hv. start_run.
  unfold createTransaction, validator, loaded_balance, category.
  run_handler; leaf; cbn;
    try match goal with H : (_ && _) = _ |- _ => rewrite H end;
    try discriminate; intros _ _.
  all: eexists _, _; repeat split;
    rewrite lookup_alter_eq;
    match goal with H : profiles _ !! _ = _ |- _ => by rewrite H end.
Qed.

(** X6. When the balance update of [createTransaction] fails and the
    compensating delete succeeds, the store is exactly what it was before the
    request: no movement survives and no balance has changed; the answer is
    400 with code TRANSACTION_FAILED. *)
Theorem createTransaction_undone (user : profile) (b : body) (e : env) (w : world) :
  ok <$> writes_only (trace (createTransaction user b e w)) = [true; false; true] →
  final (createTransaction user b e w) = store w ∧
  answer (createTransaction user b e w)
    = Rejected 400 "Transaction failed" (Some "TRANSACTION_FAILED").
Proof.
  start_run. unfold createTransaction.
  run_handler; leaf; cbn; intros Hok; try discriminate.
  all: by rewrite delete_inserted, db_eta.
Qed.

Lemma createTransaction_undone_witness :
  let run :=
    createTransaction xavier (movement "credit" (units 120) "refund") noon
      (world_of bank [Done; Done; Failed "timeout"]) in
  final run = bank ∧
  answer run = Rejected 400 "Transaction failed" (Some "TRANSACTION_FAILED").
Proof.
  apply (createTransaction_undone xavier (movement "credit" (units 120) "refund") noon
           (world_of bank [Done; Done; Failed "timeout"])).
  vm_compute. reflexivity.
Defined.

(** On a body whose amount is a number: whenever the account-route
    [transfer] is not rejected, the sender had
    at least the amount, the recipient is another, active account holding the
    given account number, the amount is positive, and afterwards the sender's
    balance is lower by exactly the amount and the recipient's higher by
    exactly the amount, so that the sum of the two balances is unchanged; the
    store is the old one with the two legs and the two balances. *)
Lemma typed_transfer_completes (user : profile) (b : body) (w : world) :
  rejected (answer (transfer user b w)) = false →
  ∃ (sender recipient : profile_cols) (r : nat),
    profiles (store w) !! pid user = Some sender ∧
    profiles (store w) !! r = Some recipient ∧ r ≠ pid user ∧
    Some (account_number recipient) = b_to_account_number b ∧
    is_active recipient = true ∧ 0 < b_amount b ≤ balance sender ∧
    final (transfer user b w) = transferred (store w) (pid user) r sender recipient b ∧
    profiles (final (transfer user b w)) !! pid user
      = Some (set_balance (balance sender - b_amount b) sender) ∧
    profiles (final (transfer user b w)) !! r
      = Some (set_balance (balance recipient + b_amount b) recipient) ∧
    (balance sender - b_amount b) + (balance recipient + b_amount b)
      = balance sender + balance recipient ∧
    answer (transfer user b w)
      = TransferCompleted
          {| tid := next_tid (transactions (store w)); tcols := debit_leg (pid user) b |}
          (balance sender - b_amount b).
Proof.
  start_run. unfold transfer.
  run_handler; leaf; cbn [rejected store]; intros Hr; try discriminate.
  all: arith_facts;
    match goal with
    | Hs : profiles _ !! pid ?u = Some ?c, Hd : profiles _ !! pid ?data = Some (pcols ?data),
      Hne : (pid ?data =? pid ?u)%nat = false |- _ =>
        apply Nat.eqb_neq in Hne; exists c, (pcols data), (pid data)
    end;
    match goal with H : negb (is_active _) = false |- _ =>
      apply negb_false_iff in H end.
  all: unfold transferred; cbn [profiles alter_profile];
    repeat split; try done; try lia.
  all: first [ by rewrite lookup_alter_ne, lookup_alter_eq by done;
                  match goal with H : profiles _ !! _ = _ |- _ => rewrite H end
             | by rewrite lookup_alter_eq;
                  rewrite lookup_alter_ne by done;
                  match goal with H : profiles _ !! _ = _ |- _ => rewrite H end ].
Qed.

(** X8. Every run of the account-route [transfer] ends in one of three ways:
    it issued no write at all and left the store as it was; or it answers
    400 with code TRANSACTION_FAILED; or it completed. *)
Theorem transfer_fails_early_or_late (user : profile) (b : body) (w : world) :
  (rejected (answer (transfer user b w)) = true ∧
   writes_only (trace (transfer user b w)) = [] ∧
   final (transfer user b w) = store w ∧
   code_of (answer (transfer user b w))
     ∈ [Some "ACCOUNT_INACTIVE"; Some "INVALID_AMOUNT"; Some "ACCOUNT_NOT_FOUND";
        Some "RECIPIENT_INACTIVE"; Some "SELF_TRANSFER"; Some "INSUFFICIENT_FUNDS"]) ∨
  (writes_only (trace (transfer user b w)) ≠ [] ∧
   ∃ error, answer (transfer user b w) = Rejected 400 error (Some "TRANSACTION_FAILED")) ∨
  (rejected (answer (transfer user b w)) = false ∧
   forallb ok (trace (transfer user b w)) = true).
Proof.
  start_run. unfold transfer.
  run_handler; leaf; cbn.
  all: first [ left; repeat split; try done;
               rewrite !elem_of_cons; repeat (first [by left | right])
             | right; left; split; [done|]; by eexists
             | right; right; done ].
Qed.

(** ** Whom a transfer can reach *)

Lemma select_unique (d : db) (number : option string) (k : nat) (c : profile_cols) :
  profiles d !! k = Some c →
  Some (account_number c) = number →
  (∀ k' c', profiles d !! k' = Some c' → Some (account_number c') = number → k' = k) →
  single (map_to_list
            (filter (λ kc : nat * profile_cols, Some (account_number kc.2) = number)
               (profiles d))) = Data {| pid := k; pcols := c |}.
Proof.
  intros Hk Hn Hu.
  assert (filter (λ kc : nat * profile_cols, Some (account_number kc.2) = number)
            (profiles d) = {[k := c]}) as ->.
  { apply map_eq. intros i. destruct (decide (i = k)) as [->|Hne].
    - rewrite lookup_singleton_eq. by apply map_lookup_filter_Some.
    - rewrite lookup_singleton_ne by done. apply map_lookup_filter_None.
      destruct (profiles d !! i) as [ci|] eqn:Hi; [|by left].
      right. intros x [= <-] Hx. by apply Hne, (Hu i ci). }
  by rewrite map_to_list_singleton.
Qed.

Lemma select_none (d : db) (number : option string) :
  (∀ k c, profiles d !! k = Some c → Some (account_number c) ≠ number) →
  single (map_to_list
            (filter (λ kc : nat * profile_cols, Some (account_number kc.2) = number)
               (profiles d))) = Error no_rows.
Proof.
  intros Hn.
  assert (filter (λ kc : nat * profile_cols, Some (account_number kc.2) = number)
            (profiles d) = ∅) as ->.
  { apply map_empty. intros i. apply map_lookup_filter_None.
    destruct (profiles d !! i) as [ci|] eqn:Hi; [|by left].
    right. intros x [= <-] Hx. by apply (Hn i ci). }
  by rewrite map_to_list_empty.
Qed.

(** X9. For an active sender and a positive amount, with the recipient query
    reaching the store: if no account has the given account number the
    transfer answers ACCOUNT_NOT_FOUND; if the only account with that number
    is the sender's own (and is active) it answers SELF_TRANSFER; if it is
    another, inactive account it answers RECIPIENT_INACTIVE.  None of the
    three issues a write. *)
Theorem transfer_refuses_recipient (user : profile) (b : body) (w : world) :
  is_active user = true → 0 < b_amount b → hd Done (faults w) = Done →
  ((∀ k c, profiles (store w) !! k = Some c →
           Some (account_number c) ≠ b_to_account_number b) →
   code_of (answer (transfer user b w)) = Some "ACCOUNT_NOT_FOUND" ∧
   writes_only (trace (transfer user b w)) = []) ∧
  (∀ k c, profiles (store w) !! k = Some c →
          Some (account_number c) = b_to_account_number b →
          (∀ k' c', profiles (store w) !! k' = Some c' →
                    Some (account_number c') = b_to_account_number b → k' = k) →
          (k = pid user → is_active c = true →
           code_of (answer (transfer user b w)) = Some "SELF_TRANSFER" ∧
           writes_only (trace (transfer user b w)) = []) ∧
          (is_active c = false →
           code_of (answer (transfer user b w)) = Some "RECIPIENT_INACTIVE" ∧
           writes_only (trace (transfer user b w)) = [])).
Proof.
  intros Ha Hp Hf. apply Z.leb_gt in Hp.
  assert (negb (is_active user) = false) as Hn by (by rewrite Ha).
  split.
  - intros Hsel%select_none. revert Hsel Hf. start_run. cbn [store faults].
    intros Hrun Hsel Hf. revert Hrun. unfold transfer.
    run_handler; leaf; try discriminate Hf; done.
  - intros k c Hk Hc Hu. pose proof (select_unique _ _ k c Hk Hc Hu) as Hsel.
    clear Hk Hu. revert Hsel Hf. start_run. cbn [store faults].
    intros Hrun Hsel Hf. split.
    + intros -> Hac. assert (negb (is_active c) = false) as Hnc by (by rewrite Hac).
      assert ((pid user =? pid user)%nat = true) as Hid by apply Nat.eqb_refl.
      revert Hrun. unfold transfer.
      run_handler; leaf; try discriminate Hf; done.
    + intros Hac. assert (negb (is_active c) = true) as Hnc by (by rewrite Hac).
      revert Hrun. unfold transfer.
      run_handler; leaf; try discriminate Hf; done.
Qed.

Lemma transfer_refuses_recipient_witness :
  code_of (answer (transfer xavier (to_yvonne (units 150))
                     (world_of (alter_profile (set_active false) 2 bank) [])))
    = Some "RECIPIENT_INACTIVE" ∧
  writes_only (trace (transfer xavier (to_yvonne (units 150))
                        (world_of (alter_profile (set_active false) 2 bank) []))) = [].
Proof.
  destruct (transfer_refuses_recipient xavier (to_yvonne (units 150))
              (world_of (alter_profile (set_active false) 2 bank) []))
    as [_ H]; [reflexivity..|].
  apply (H 2%nat (customer "yvonne" "RS0000000002" (units 200) false)).
  - vm_compute. reflexivity.
  - reflexivity.
  - intros k' c' Hk' Hc'. cbn [store world_of alter_profile profiles bank] in Hk'.
    apply lookup_alter_Some in Hk' as [(<- & _)|[_ Hk']]; [done|].
    repeat (apply lookup_insert_Some in Hk' as [[<- <-]|[_ Hk']];
            [first [done | discriminate Hc']|]).
    by rewrite lookup_empty in Hk'.
  - reflexivity.
Defined.

(** ** The presets *)

Lemma inserted_row (user : profile) (b : body) (e : env) (w : world)
    (cols : transaction_cols) :
  InsertTransaction cols ∈ ev_call <$> trace (createTransaction user b e w) →
  ∃ type, b_type b = Some type ∧
    cols = {| user_id := pid user; type := type; amount := b_amount b;
              description := b_description b;
              to_account_number := b_to_account_number b;
              transaction_type := Some (category b);
              reference := Some (generateReference (category b) (now e) (random36 e));
              status := "completed" |}.
Proof.
  start_run. unfold createTransaction, category.
  run_handler; leaf; cbn; rewrite ?elem_of_cons, ?elem_of_nil; intros Hin;
    repeat match goal with H : _ ∨ _ |- _ => destruct H end;
    try done; simplify_eq; by eexists.
Qed.

Lemma reference_prefix (c : string) (n : N) (r : string) :
  generateReference c n r
  = Js.toUpperCase (substring 0 3 (Js.toUpperCase c)) +:+ "-"
    +:+ (Js.toUpperCase (Js.toString36 n) +:+ String "-" (Js.toUpperCase (substring 2 6 r))).
Proof. by rewrite generateReference_unfold. Qed.

(** X10. The presets fix the direction and the category whatever the body
    carries: every movement that [createWithdrawal] inserts is a debit of
    category withdrawal with a reference starting with WIT-, every movement of
    [createDeposit] a credit of category deposit with a reference starting
    with DEP-, and every movement of [createTransfer] a debit of category
    transfer with a reference starting with TRA- and a non-empty
    [to_account_number]; each is recorded against the caller. *)
Theorem presets_fix_direction_and_category
    (user : profile) (b : body) (e : env) (w : world) (cols : transaction_cols) :
  (InsertTransaction cols ∈ ev_call <$> trace (createWithdrawal user b e w) →
   user_id cols = pid user ∧ type cols = "debit" ∧
   transaction_type cols = Some "withdrawal" ∧
   ∃ rest, reference cols = Some ("WIT-" +:+ rest)) ∧
  (InsertTransaction cols ∈ ev_call <$> trace (createDeposit user b e w) →
   user_id cols = pid user ∧ type cols = "credit" ∧
   transaction_type cols = Some "deposit" ∧
   ∃ rest, reference cols = Some ("DEP-" +:+ rest)) ∧
  (InsertTransaction cols ∈ ev_call <$> trace (createTransfer user b e w) →
   user_id cols = pid user ∧ type cols = "debit" ∧
   transaction_type cols = Some "transfer" ∧
   Js.truthy (to_account_number cols) = true ∧
   ∃ rest, reference cols = Some ("TRA-" +:+ rest)).
Proof.
  split; [|split].
  - unfold createWithdrawal. intros (ty & [= <-] & ->)%inserted_row.
    cbn [user_id type transaction_type reference category with_fields b_transaction_type default].
    repeat split. rewrite reference_prefix. by eexists.
  - unfold createDeposit. intros (ty & [= <-] & ->)%inserted_row.
    cbn [user_id type transaction_type reference category with_fields b_transaction_type default].
    repeat split. rewrite reference_prefix. by eexists.
  - unfold createTransfer. destruct (Js.truthy (b_to_account_number b)) eqn:Ht; cbn [negb].
    + intros (ty & [= <-] & ->)%inserted_row.
      cbn [user_id type transaction_type reference category with_fields b_transaction_type
           default to_account_number b_to_account_number].
      repeat split; [done|]. rewrite reference_prefix. by eexists.
    + unfold trace, ret. cbn. by rewrite elem_of_nil.
Qed.

Lemma presets_fix_direction_and_category_witness :
  let cols :=
    {| user_id := 1; type := "debit"; amount := units 150;
       description := Some "Transfer to RS0000000002";
       to_account_number := Some "RS0000000002";
       transaction_type := Some "transfer";
       reference := Some "TRA-LOYW3V28-4FZYO8"; status := "completed" |} in
  user_id cols = 1%nat ∧ type cols = "debit" ∧
  transaction_type cols = Some "transfer" ∧
  Js.truthy (to_account_number cols) = true ∧
  ∃ rest, reference cols = Some ("TRA-" +:+ rest).
Proof.
  apply (presets_fix_direction_and_category xavier
           {| b_type := Some "credit"; b_amount := units 150; b_description := None;
              b_to_account_number := Some "RS0000000002";
              b_transaction_type := Some "deposit" |}
           noon (world_of bank [])).
  apply (list_elem_of_lookup_2 _ 1%nat). vm_compute. reflexivity.
Defined.

(** ** Reading back *)

Lemma single_row_inv (rows : list transaction) (t : transaction) :
  single_row rows = Data t → rows = [t].
Proof. destruct rows as [|? [|? ?]]; cbn; try discriminate. by intros [= ->]. Qed.

Lemma no_row_with_fresh_id (ts : list transaction) (f : transaction → bool) :
  List.filter (λ t : transaction, Nat.eqb (tid t) (next_tid ts) && f t) ts = [].
Proof.
  assert (∀ l : list transaction, (∀ t, t ∈ l → tid t ≠ next_tid ts) →
            List.filter (λ t : transaction, Nat.eqb (tid t) (next_tid ts) && f t) l = [])
    as H.
  { induction l as [|t l IH]; intros Hl; [done|]. cbn [List.filter].
    destruct (Nat.eqb_spec (tid t) (next_tid ts)) as [Heq|_].
    - exfalso. by apply (Hl t); [left|].
    - cbn [andb]. apply IH. intros t' Ht'. apply Hl. by right. }
  apply H. intros t. apply next_tid_fresh.
Qed.

(** X12. [getTransactionById] only ever returns a movement of the ledger
    that has the requested id and is recorded against the caller; and the
    movement that a completed [createTransaction] announces is found again
    under its id by the same caller. *)
Theorem own_movement_by_id (user : profile) (id : nat) (w : world) (t : transaction) :
  ((getTransactionById user id w).1 = Json t →
   t ∈ transactions (store w) ∧ tid t = id ∧ user_id t = pid user) ∧
  (∀ (b : body) (e : env) (w0 : world) (announced : Z),
     answer (createTransaction user b e w0) = TransactionCreated t announced →
     hd Done (faults (createTransaction user b e w0).1.2) = Done →
     (getTransactionById user (tid t) (createTransaction user b e w0).1.2).1 = Json t).
Proof.
  split.
  - unfold getTransactionById, read, next_fault. destruct (hd Done (faults w)); cbn [fst snd store].
    + destruct (single_row _) eqn:Hs; cbn; [|discriminate].
      intros [= ->]. apply single_row_inv in Hs.
      assert (t ∈ List.filter
                (λ t0 : transaction, Nat.eqb (tid t0) id && Nat.eqb (user_id t0) (pid user))
                (transactions (store w))) as Hin by (rewrite Hs; left).
      apply list_elem_of_In, filter_In in Hin as [Hin [H1 H2]%andb_prop].
      apply list_elem_of_In in Hin. by apply Nat.eqb_eq in H1, H2.
    + discriminate.
  - intros b e w0 announced. start_run. unfold createTransaction.
    run_handler; leaf; cbn [rejected store faults]; intros Ha; try discriminate Ha;
      injection Ha as <- <-; intros Hf.
    all: unfold getTransactionById, read, next_fault;
      cbn [store faults transactions alter_profile tid];
      rewrite Hf; cbn [fst snd]; rewrite List.filter_app; cbn [List.filter tid user_id tcols];
      rewrite !Nat.eqb_refl; cbn [andb];
      rewrite no_row_with_fresh_id; reflexivity.
Qed.

Lemma own_movement_by_id_witness :
  tid {| tid := 7; tcols := deposit_row "DEP-LOYW3V28-K3J9X1A7P" |} = 7%nat ∧
  user_id {| tid := 7; tcols := deposit_row "DEP-LOYW3V28-K3J9X1A7P" |} = pid xavier.
Proof.
  apply (own_movement_by_id xavier 7
           (world_of {| profiles := profiles bank;
                        transactions :=
                          [ {| tid := 4; tcols := debit_leg 1 (to_yvonne (units 150)) |};
                            {| tid := 7; tcols := deposit_row "DEP-LOYW3V28-K3J9X1A7P" |} ] |} [])
           {| tid := 7; tcols := deposit_row "DEP-LOYW3V28-K3J9X1A7P" |}).
  vm_compute; reflexivity.
Defined.

(** ** Statistics *)

Lemma sum_amounts_from (rows : list transaction) (z : Z) :
  fold_left (λ sum (t : transaction), sum + amount t) rows z = z + sum_amounts rows.
Proof.
  unfold sum_amounts. revert z.
  induction rows as [|t rows IH]; intros z; cbn [fold_left]; [lia|].
  rewrite IH, (IH (0 + amount t)). lia.
Qed.

Lemma sum_amounts_cons (t : transaction) (rows : list transaction) :
  sum_amounts (t :: rows) = amount t + sum_amounts rows.
Proof. unfold sum_amounts at 1. cbn [fold_left]. rewrite sum_amounts_from. lia. Qed.

Lemma net_flow_is_ledger (A : nat) (ts : list transaction) :
  sum_amounts (List.filter (λ t : transaction, String.eqb (type t) "credit")
                 (List.filter (against A) ts))
  - sum_amounts (List.filter (λ t : transaction, String.eqb (type t) "debit")
                   (List.filter (against A) ts))
  = ledger A ts.
Proof.
  induction ts as [|t ts IH]; [done|].
  cbn [List.filter ledger]. destruct (against A t); [|lia].
  cbn [List.filter]. unfold signed.
  destruct (String.eqb_spec (type t) "credit") as [Hc|Hc].
  - rewrite Hc. cbn [String.eqb Ascii.eqb Bool.eqb]. rewrite sum_amounts_cons. lia.
  - destruct (String.eqb (type t) "debit"); [rewrite sum_amounts_cons|]; lia.
Qed.

Lemma tally_fold (rows : list transaction) (acc : gmap string tally) (k : string) :
  fold_left tally_step rows acc !! k =
    match List.filter (counted_under k) rows with
    | [] => acc !! k
    | sel =>
        let entry := default {| t_count := 0; t_amount := 0 |} (acc !! k) in
        Some {| t_count := t_count entry + List.length sel;
                t_amount := t_amount entry + sum_amounts sel |}
    end.
Proof.
  revert acc. induction rows as [|t rows IH]; intros acc; [done|].
  cbn [fold_left List.filter]. rewrite IH. unfold counted_under at 2, tally_step at 1 2 3.
  destruct (String.eqb_spec (Js.or_else (transaction_type t) "transfer") k) as [->|Hk].
  - rewrite lookup_insert_eq.
    destruct (List.filter (counted_under _) rows) as [|t' sel] eqn:Hsel.
    + generalize (default {| t_count := 0; t_amount := 0 |} (acc !! k)). intros entry.
      cbn [default t_count t_amount List.length]. rewrite sum_amounts_cons.
      unfold sum_amounts; cbn [fold_left]. apply (f_equal Some); f_equal; lia.
    + generalize (default {| t_count := 0; t_amount := 0 |} (acc !! k)). intros entry.
      cbn [default t_count t_amount List.length]. rewrite !sum_amounts_cons.
      apply (f_equal Some); f_equal; unfold id; cbn [t_count t_amount]; lia.
  - rewrite lookup_insert_ne by done. reflexivity.
Qed.

(** X14. In the statistics of a user, [type_breakdown] has an entry for a
    category exactly when the user has a completed movement counted under
    it, a movement being counted under its [transaction_type] and under
    transfer when it has none; the entry holds the number and the total
    amount of those movements. *)
Theorem breakdown_by_category (user : profile) (w : world) (s : stats_json) (k : string) :
  (getTransactionStats user w).1 = Json s →
  (type_breakdown s !! k = None ↔
   List.filter (counted_under k)
     (List.filter (against (pid user)) (transactions (store w))) = []) ∧
  (∀ e : tally, type_breakdown s !! k = Some e →
     t_count e = List.length
                   (List.filter (counted_under k)
                      (List.filter (against (pid user)) (transactions (store w)))) ∧
     t_amount e = sum_amounts
                    (List.filter (counted_under k)
                       (List.filter (against (pid user)) (transactions (store w))))).
Proof.
  unfold getTransactionStats, read, next_fault.
  destruct (hd Done (faults w)); cbn [fst snd store]; [|discriminate].
  intros [= <-]. cbn [type_breakdown]. rewrite tally_fold, lookup_empty.
  fold (against (pid user)).
  destruct (List.filter (counted_under k) _) as [|t1 sel]; cbn zeta.
  - split; [done|]. intros e [=].
  - split; [done|]. intros e [= <-]. cbn [t_count t_amount default List.length]. unfold id; cbn [t_count t_amount]. split; lia.
Qed.

Lemma breakdown_by_category_witness :
  t_count {| t_count := 1; t_amount := units 150 |} = 1%nat ∧
  t_amount {| t_count := 1; t_amount := units 150 |} = units 150.
Proof.
  apply (proj2 (breakdown_by_category xavier (run afternoon (world_of bank [])).2
                  afternoon_stats "transfer" eq_refl)
           {| t_count := 1; t_amount := units 150 |}).
  vm_compute; reflexivity.
Defined.

(** ** Accounts: signup, activation and the admin routes *)

Ltac unfold_accounts :=
  unfold handle, active_route, admin_route, authenticateToken, requireActiveAccount,
    requireAdmin, signup, activateAccount, admin_activate, admin_deactivate, admin_balance.

(** X15. Only the money-movement requests write the ledger: signup, both
    activations, deactivation and the admin balance adjustment leave the
    movement records exactly as they were, whatever they do to a balance. *)
Theorem only_movements_write_the_ledger (r : request) (e : env) (w : world) :
  money_movement r = false →
  transactions (final (handle r e w)) = transactions (store w) ∧
  (∀ c : transaction_cols, InsertTransaction c ∉ ev_call <$> trace (handle r e w)) ∧
  (∀ id : nat, DeleteTransaction id ∉ ev_call <$> trace (handle r e w)).
Proof.
  intros Hm. start_run.
  destruct r; try discriminate Hm; unfold_accounts; try destruct c.
  all: run_handler; leaf; cbn [store transactions alter_profile fmap list_fmap ev_call].
  all: split; [reflexivity|].
  all: split; intros ?; rewrite ?elem_of_cons, elem_of_nil; intros H;
    repeat destruct H as [H|H]; try discriminate H; exact H.
Qed.

Lemma only_movements_write_the_ledger_witness :
  transactions
    (final (handle (POST_admin_balance true 1 (Some (units 75)) (Some "add")) noon
              (world_of bank [])))
  = transactions (store (world_of bank [])).
Proof.
  apply (only_movements_write_the_ledger
           (POST_admin_balance true 1 (Some (units 75)) (Some "add")) noon (world_of bank [])).
  vm_compute; reflexivity.
Defined.

(** X16. A signup never alters an account that exists: whatever the store
    answers, every row of [profiles] present before the request is present
    unchanged after it. *)
Theorem signup_keeps_existing_accounts
    (b : signup_body) (e : env) (w : world) (A : nat) (c : profile_cols) :
  profiles (store w) !! A = Some c →
  profiles (final (signup b e w)) !! A = Some c.
Proof.
  start_run. unfold signup.
  run_handler; leaf; cbn [store profiles]; intros HA; try exact HA.
  all: rewrite lookup_insert_ne; [exact HA|].
  all: intros <-; apply (is_fresh (dom (profiles d))), elem_of_dom; eauto.
Qed.

Lemma signup_keeps_existing_accounts_witness :
  profiles (final (signup {| s_name := "xavier"; s_email := "x@example.com";
                             s_password := "secret" |} noon (world_of bank [])))
    !! 1%nat
  = Some (customer "xavier" "RS0000000001" (units 500) true).
Proof.
  apply (signup_keeps_existing_accounts _ noon (world_of bank []) 1).
  vm_compute; reflexivity.
Defined.

(** X17. On the auth route, activation asks for a valid token only: when
    the bearer [u] of the token has a row, active or not, and the two store
    calls succeed, [PATCH /auth/activate/:userId] turns the flag of any
    existing account [A] to true, keeps its balance and its number, and
    touches no other account. *)
Theorem any_token_holder_can_activate
    (u A : nat) (e : env) (w : world) (cu c : profile_cols) :
  profiles (store w) !! u = Some cu →
  profiles (store w) !! A = Some c →
  faults w = [] →
  answer (handle (PATCH_auth_activate (Token u) A) e w)
    = AccountActivated {| pid := A; pcols := set_active true c |} ∧
  profiles (final (handle (PATCH_auth_activate (Token u) A) e w))
    = <[A := set_active true c]> (profiles (store w)).
Proof.
  intros Hu HA Hf. start_run. cbn [store faults] in *. subst fs.
  unfold_accounts. run_handler; leaf; cbn [store profiles alter_profile].
  split; [reflexivity|].
  apply map_eq. intros k. destruct (decide (k = A)) as [->|Hk].
  - rewrite lookup_alter_eq, lookup_insert_eq, HA. reflexivity.
  - rewrite lookup_alter_ne, lookup_insert_ne by done. reflexivity.
Qed.

Lemma any_token_holder_can_activate_witness :
  answer (handle (PATCH_auth_activate (Token 3) 3) noon (world_of bank []))
    = AccountActivated
        {| pid := 3; pcols := set_active true (customer "zoe" "RS0000000003" (units 100000) false) |} ∧
  profiles (final (handle (PATCH_auth_activate (Token 3) 3) noon (world_of bank [])))
    = <[3%nat := set_active true (customer "zoe" "RS0000000003" (units 100000) false)]>
        (profiles (store (world_of bank []))).
Proof.
  apply (any_token_holder_can_activate 3 3 noon (world_of bank [])
           (customer "zoe" "RS0000000003" (units 100000) false)
           (customer "zoe" "RS0000000003" (units 100000) false));
    vm_compute; reflexivity.
Defined.

(** X18. The admin activation replaces what signup stored: for an account
    created by a signup and then activated by [POST
    /admin/users/:userId/activate] with no [initial_balance], both requests
    succeeding, the account ends active with balance 1000.00, not the
    100000.00 of the signup, and with the number RS followed by the last
    eight decimal digits of the clock. *)
Theorem admin_activation_replaces_signup_balance
    (b : signup_body) (e e' : env) (w : world) (u : profile) :
  answer (signup b e w) = SignedUp u →
  hd Done (faults (signup b e w).1.2) = Done →
  profiles
    (final (handle (POST_admin_activate true (pid u) None) e' (signup b e w).1.2))
    !! pid u
  = Some {| name := s_name b; email := s_email b; password_hash := digest e;
            account_number := "RS" +:+ Js.slice_last 8 (decimal (now e'));
            balance := units 1000; is_active := true |}.
Proof.
  start_run. unfold signup.
  run_handler; leaf; cbn [store faults pid]; intros [= <-]; cbn [pid]; intros Hf.
  all: unfold final; unfold_accounts; unfold_store; cbn [negb]; reduce_run; rewrite ?Hf;
    reduce_run; rewrite lookup_insert_eq; reduce_run;
    cbn [fst snd store profiles alter_profile];
    rewrite lookup_alter_eq, lookup_insert_eq; reflexivity.
Qed.

Lemma admin_activation_replaces_signup_balance_witness :
  profiles
    (final (handle (POST_admin_activate true 4 None) a_moment_later
              (signup {| s_name := "walt"; s_email := "walt@example.com";
                         s_password := "secret" |} noon (world_of bank [])).1.2))
    !! 4%nat
  = Some {| name := "walt"; email := "walt@example.com"; password_hash := "$2a$12$";
            account_number := "RS" +:+ Js.slice_last 8 (decimal (now a_moment_later));
            balance := units 1000; is_active := true |}.
Proof.
  apply (admin_activation_replaces_signup_balance
           {| s_name := "walt"; s_email := "walt@example.com"; s_password := "secret" |}
           noon a_moment_later (world_of bank [])
           {| pid := 4;
              pcols := {| name := "walt"; email := "walt@example.com";
                          password_hash := "$2a$12$";
                          account_number := generateAccountNumber (random10 noon);
                          balance := units 100000; is_active := false |} |});
    vm_compute; reflexivity.
Defined.

(** X19. The admin balance adjustment with operation subtract never
    overdraws: it keeps every balance non-negative, for every amount and
    whatever the store answers. *)
Theorem admin_subtract_never_overdraws
    (userId : nat) (amount : option Z) (e : env) (w : world) :
  solvent (store w) →
  solvent (final (handle (POST_admin_balance true userId amount (Some "subtract")) e w)).
Proof.
  start_run. unfold_accounts. run_handler; leaf; cbn [store]; intros Hs; try exact Hs.
  all: intros k c; cbn [profiles alter_profile]; intros Hk.
  all: apply lookup_alter_Some in Hk as [(_ & c0 & _ & ->)|[_ Hk]]; [|by eapply Hs].
  all: cbn [balance set_balance]; lia.
Qed.

Lemma admin_subtract_never_overdraws_witness :
  solvent (final (handle (POST_admin_balance true 1 (Some (units 900)) (Some "subtract"))
                    noon (world_of bank []))).
Proof.
  apply (admin_subtract_never_overdraws 1 (Some (units 900)) noon (world_of bank [])).
  exact solvent_bank.
Defined.

(** ** The support bot *)

Lemma prefix_app_includes (a b s : string) :
  String.prefix (a +:+ b) s = true → str_includes s b = true.
Proof.
  revert s. induction a as [|c a IH]; intros s.
  - change ("" +:+ b) with b. intros H. destruct s; cbn [str_includes]; by rewrite H.
  - rewrite append_cons. destruct s as [|c' s]; cbn [String.prefix]; [discriminate|].
    destruct (ascii_dec c c'); [|discriminate].
    intros H%IH. cbn [str_includes]. rewrite H. apply orb_true_r.
Qed.

Lemma includes_app (a b s : string) :
  str_includes s (a +:+ b) = true → str_includes s b = true.
Proof.
  induction s as [|c s IH]; cbn [str_includes].
  - rewrite orb_false_r. apply prefix_app_includes.
  - intros [H|H]%orb_prop.
    + by apply prefix_app_includes in H.
    + rewrite (IH H). apply orb_true_r.
Qed.

(** X20. The entry [send money] of the bot's table never answers: the
    keyword [money] stands before it, so every message that contains
    [send money], in any case, is answered with the balance text and not
    with the transfer text. *)
Theorem send_money_is_answered_as_balance (userMessage : string) :
  str_includes (toLowerCase userMessage) "send money" = true →
  generateBotResponse userMessage = about_balance ∧
  generateBotResponse userMessage ≠ about_transfer.
Proof.
  intros H. apply (includes_app "send " "money") in H.
  assert (generateBotResponse userMessage = about_balance) as ->.
  { unfold generateBotResponse, responses. cbn [first_match].
    destruct (str_includes _ "balance"); [done|]. by rewrite H. }
  split; [done|]. by vm_compute.
Qed.

Lemma send_money_is_answered_as_balance_witness :
  generateBotResponse "How do I Send Money to my sister?" = about_balance ∧
  generateBotResponse "How do I Send Money to my sister?" ≠ about_transfer.
Proof.
  apply (send_money_is_answered_as_balance "How do I Send Money to my sister?").
  vm_compute; reflexivity.
Defined.

(** ** What a reference tells *)

Lemma until_dash_app (a b : string) :
  has_dash a = false → until_dash (a +:+ String "-" b) = a.
Proof.
  induction a as [|c a IH]; [done|].
  rewrite append_cons. cbn [has_dash until_dash].
  intros [-> Ha]%orb_false_elim. by rewrite IH.
Qed.

Lemma toLowerCase_toUpperCase (s : string) :
  all_digit36 s = true → toLowerCase (Js.toUpperCase s) = s.
Proof.
  induction s as [|c s IH]; cbn; [done|].
  intros [Hc Hs]%andb_prop. apply upper_digit36 in Hc as [-> _]. by rewrite IH.
Qed.

(** X21. A reference records the millisecond it was generated at: for each
    of the five categories, reading the part between the first and the
    second dash of [generateReference(category)] as a base-36 numeral gives
    back the value of [Date.now()] that the reference was built from. *)
Theorem reference_records_its_millisecond (c : string) (n : N) (r : string) :
  valid_category c = true →
  timestamp_of (generateReference c n r) = n.
Proof.
  intros Hc. rewrite generateReference_unfold. unfold timestamp_of.
  destruct (toString36_spec n) as [Hd Hv].
  assert (after_dash (Js.toUpperCase (substring 0 3 (Js.toUpperCase c))
                      +:+ String "-" (Js.toUpperCase (Js.toString36 n)
                                      +:+ String "-" (Js.toUpperCase (substring 2 6 r))))
          = Js.toUpperCase (Js.toString36 n)
            +:+ String "-" (Js.toUpperCase (substring 2 6 r))) as ->.
  { apply valid_category_cases in Hc. destruct_or!; subst c; reflexivity. }
  rewrite until_dash_app by by apply toUpperCase_no_dash.
  by rewrite toLowerCase_toUpperCase.
Qed.

Lemma reference_records_its_millisecond_witness :
  timestamp_of (generateReference "deposit" 1700000000000 "0.4fzyo82mvyr") = 1700000000000%N.
Proof.
  apply (reference_records_its_millisecond "deposit" 1700000000000 "0.4fzyo82mvyr").
  vm_compute; reflexivity.
Defined.

(** X22. A deactivation takes effect on the next request: once [POST
    /admin/users/:userId/deactivate] has reached the store for an existing
    account, every money-movement request made with a token of that account
    is rejected, writes nothing and leaves the store as the deactivation
    left it, the token not having been reissued. *)
Theorem deactivation_stops_movements
    (A : nat) (c : profile_cols) (e e' : env) (w : world) (r : request) :
  profiles (store w) !! A = Some c →
  hd Done (faults w) = Done →
  money_movement r = true →
  caller r = Some (Token A) →
  rejected (answer (handle r e' (handle (POST_admin_deactivate true A) e w).1.2)) = true ∧
  final (handle r e' (handle (POST_admin_deactivate true A) e w).1.2)
    = final (handle (POST_admin_deactivate true A) e w) ∧
  writes_only (trace (handle r e' (handle (POST_admin_deactivate true A) e w).1.2)) = [].
Proof.
  intros HA Hf Hm Hc.
  assert (profiles (final (handle (POST_admin_deactivate true A) e w)) !! A
          = Some (set_active false c)) as Hd.
  { revert HA Hf. start_run. cbn [store faults]. intros Hrun HA Hf. revert Hrun.
    unfold_accounts. cbn [negb]. run_handler; leaf; try discriminate Hf.
    all: cbn [store profiles alter_profile]; by rewrite lookup_alter_eq, HA. }
  unfold final at 1 in Hd.
  destruct (inactive_caller_is_rejected r e' _ A _ Hm Hc Hd eq_refl) as (H1 & H2 & H3 & _).
  repeat split; assumption.
Qed.

Lemma deactivation_stops_movements_witness :
  rejected
    (answer (handle (POST_transactions_withdraw (Token 1)
                       (movement "debit" (units 20) "withdrawal")) a_moment_later
               (handle (POST_admin_deactivate true 1) noon (world_of bank [])).1.2)) = true ∧
  final (handle (POST_transactions_withdraw (Token 1)
                   (movement "debit" (units 20) "withdrawal")) a_moment_later
           (handle (POST_admin_deactivate true 1) noon (world_of bank [])).1.2)
    = final (handle (POST_admin_deactivate true 1) noon (world_of bank [])) ∧
  writes_only
    (trace (handle (POST_transactions_withdraw (Token 1)
                      (movement "debit" (units 20) "withdrawal")) a_moment_later
              (handle (POST_admin_deactivate true 1) noon (world_of bank [])).1.2)) = [].
Proof.
  apply (deactivation_stops_movements 1 (customer "xavier" "RS0000000001" (units 500) true)
           noon a_moment_later (world_of bank [])
           (POST_transactions_withdraw (Token 1) (movement "debit" (units 20) "withdrawal")));
    vm_compute; reflexivity.
Defined.

(** ** The handlers on a number are the handlers of the first part *)

Lemma stored_calculateNewBalance (x c : Z) (type : string) :
  Untyped.stored (Untyped.calculateNewBalance x (Untyped.number c) type)
  = calculateNewBalance x c type.
Proof.
  unfold Untyped.calculateNewBalance, calculateNewBalance.
  by repeat destruct (String.eqb _ _).
Qed.

(** Follow, on the left of an equation, the branches that the hypotheses
    single out. *)
Ltac follow :=
  repeat (lazymatch goal with
          | |- ?lhs = _ => let s := scrutinee lhs in split_on s
          end; reduce_run).

Lemma createTransaction_agrees (user : profile) (b : Untyped.body) (e : env) (w : world)
    (c : Z) :
  Untyped.u_amount b = Untyped.number c →
  Untyped.createTransaction user b e w
  = (without_balance (answer (createTransaction user (typed_body b) e w)),
     (createTransaction user (typed_body b) e w).1.2,
     trace (createTransaction user (typed_body b) e w)).
Proof.
  destruct b as [ty am de to tt]. cbn [Untyped.u_amount]. intros ->.
  unfold Untyped.createTransaction, typed_body.
  cbn [Untyped.u_amount Untyped.u_type Untyped.u_description Untyped.u_to_account_number
       Untyped.u_transaction_type Untyped.to_number].
  rewrite ?stored_calculateNewBalance.
  start_run. unfold createTransaction.
  cbn [b_amount b_type b_description b_to_account_number b_transaction_type].
  run_handler; leaf; cbn [without_balance]; unfold_store; reduce_run;
    rewrite ?stored_calculateNewBalance; follow; reflexivity.
Qed.

Lemma transfer_agrees (user : profile) (b : Untyped.body) (w : world) (c : Z) :
  Untyped.u_amount b = Untyped.number c →
  Untyped.transfer user b w
  = (without_balance (answer (transfer user (typed_body b) w)),
     (transfer user (typed_body b) w).1.2,
     trace (transfer user (typed_body b) w)).
Proof.
  destruct b as [ty am de to tt]. cbn [Untyped.u_amount]. intros ->.
  unfold Untyped.transfer, typed_body.
  cbn [Untyped.u_amount Untyped.u_type Untyped.u_description Untyped.u_to_account_number
       Untyped.u_transaction_type Untyped.to_number Untyped.plus Untyped.minus Untyped.stored].
  start_run. unfold transfer.
  cbn [b_amount b_type b_description b_to_account_number b_transaction_type].
  run_handler; leaf; cbn [without_balance]; unfold_store; reduce_run; follow; reflexivity.
Qed.

Lemma handle_agrees (r : Untyped.request) (e : env) (w : world) :
  Untyped.sends_number r = true →
  Untyped.handle r e w
  = (without_balance (answer (handle (typed_request r) e w)),
     (handle (typed_request r) e w).1.2,
     trace (handle (typed_request r) e w)).
Proof.
  unfold Untyped.sends_number. intros Hn.
  destruct (Untyped.u_amount (Untyped.body_of r)) as [c|] eqn:Ha; [clear Hn|discriminate Hn].
  assert (∀ (h : profile → Store response)
            (u : profile → Store (response + transaction)) (k : credentials),
            (∀ user w0, u user w0 = (without_balance (answer (h user w0)),
                                     (h user w0).1.2, trace (h user w0))) →
            Untyped.active_route k u w
            = (without_balance (answer (active_route k h w)),
               (active_route k h w).1.2, trace (active_route k h w))) as Hroute.
  { intros h u k Hu. unfold Untyped.active_route, active_route, authenticateToken,
      requireActiveAccount, answer, trace.
    destruct w as [d fs]. destruct k; unfold_store; reduce_run; try reflexivity.
    destruct fs as [|[|?] ?]; reduce_run; try reflexivity.
    all: destruct (profiles d !! userId) as [p|]; reduce_run; try reflexivity.
    all: destruct (negb (is_active p)); reduce_run; try reflexivity.
    all: rewrite Hu; unfold answer, trace;
      match goal with |- context [(?f ?x ?y).1.2] => by destruct (f x y) as [[? ?] ?] end. }
  destruct r as [k b|k b|k b|k b|k b]; cbn [Untyped.body_of] in Ha;
    cbn [Untyped.handle handle typed_request]; apply Hroute; intros user w0.
  - by apply createTransaction_agrees with c.
  - unfold Untyped.createWithdrawal, createWithdrawal.
    rewrite (createTransaction_agrees _ _ _ _ c) by (by destruct b).
    by destruct b.
  - unfold Untyped.createTransfer, createTransfer.
    replace (b_to_account_number (typed_body b)) with (Untyped.u_to_account_number b)
      by (by destruct b).
    destruct (negb (Js.truthy (Untyped.u_to_account_number b))); [reflexivity|].
    rewrite (createTransaction_agrees _ _ _ _ c) by (by destruct b).
    by destruct b.
  - unfold Untyped.createDeposit, createDeposit.
    rewrite (createTransaction_agrees _ _ _ _ c) by (by destruct b).
    by destruct b.
  - by apply transfer_agrees with c.
Qed.

Lemma run_agrees (h : list (Untyped.request * env)) (w : world) :
  forallb (λ re : Untyped.request * env, Untyped.sends_number re.1) h = true →
  Untyped.run h w
  = ((λ rt : response * list event, (without_balance rt.1, rt.2))
       <$> (run ((λ re : Untyped.request * env, (typed_request re.1, re.2)) <$> h) w).1,
     (run ((λ re : Untyped.request * env, (typed_request re.1, re.2)) <$> h) w).2).
Proof.
  revert w. induction h as [|[r e] h IH]; intros w Hn; [reflexivity|].
  cbn [forallb fst] in Hn. apply andb_prop in Hn as [Hr Hh].
  cbn [Untyped.run run fmap list_fmap fst snd]. rewrite (handle_agrees r e w Hr).
  unfold answer, trace. destruct (handle (typed_request r) e w) as [[resp w1] evs].
  cbn [fst snd]. rewrite (IH w1 Hh).
  by destruct (run _ w1) as [rest w2].
Qed.

(** ** An amount sent as text *)

(** C2, on the code.  A deposit of "30" by X, who holds 500.00, passes the
    validators with its amount still a string; every store call succeeds,
    the movement is recorded as a credit of 30.00, and [calculateNewBalance]
    joins the texts of 500 and of "30", so X's balance becomes 50030.00 and
    not 530.00.  In a transfer of "150" from X to Y, who holds 200.00, the
    sender's update subtracts and the recipient's update joins the texts:
    both movements are of 150.00, X ends with 350.00 and Y with
    200150.00. *)
Theorem amount_sent_as_text_breaks_the_balance :
  let deposit :=
    Untyped.handle (Untyped.POST_transactions_deposit (Token 1) deposit_30_as_text) noon
      (world_of bank []) in
  let transfer :=
    Untyped.handle (Untyped.POST_accounts_transfer (Token 1) transfer_150_as_text) noon
      (world_of bank []) in
  (∃ row : transaction,
     answer deposit = inr row ∧
     forallb ok (trace deposit) = true ∧
     transactions (final deposit) = [row] ∧
     (user_id row, type row, amount row, status row)
       = (1%nat, "credit", units 30, "completed") ∧
     ledger 1 (transactions (final deposit)) = units 30 ∧
     Untyped.calculateNewBalance (units 500) (Untyped.numeral 30) "credit"
       = Untyped.Str "50030" ∧
     balance <$> profiles (final deposit) !! 1%nat = Some (units 50030) ∧
     units 50030 ≠ units 500 + units 30) ∧
  (∃ debit credit : transaction,
     answer transfer = inr debit ∧
     forallb ok (trace transfer) = true ∧
     transactions (final transfer) = [debit; credit] ∧
     (user_id debit, type debit, amount debit) = (1%nat, "debit", units 150) ∧
     (user_id credit, type credit, amount credit) = (2%nat, "credit", units 150) ∧
     balance <$> profiles (final transfer) !! 1%nat = Some (units 350) ∧
     balance <$> profiles (final transfer) !! 2%nat = Some (units 200150) ∧
     units 200150 ≠ units 200 + units 150).
Proof.
  vm_compute. split.
  - eexists. repeat split; try reflexivity. discriminate.
  - eexists _, _. repeat split; try reflexivity. discriminate.
Qed.

(** ** The ledger invariant, for amounts sent as numbers *)

Lemma typed_requests_move_money (h : list (Untyped.request * env)) :
  forallb (λ re : request * env, money_movement re.1)
    ((λ re : Untyped.request * env, (typed_request re.1, re.2)) <$> h) = true.
Proof.
  induction h as [|[r e] h IH]; [done|].
  cbn [fmap list_fmap forallb fst snd]. rewrite andb_true_iff. split; [|exact IH].
  by destruct r.
Qed.

Lemma benign_without_balance (l : list (response * list event)) :
  forallb (λ rt : (response + transaction) * list event, benign rt.2)
    ((λ rt : response * list event, (without_balance rt.1, rt.2)) <$> l)
  = forallb (λ rt : response * list event, benign rt.2) l.
Proof. induction l as [|[r t] l IH]; [done|]. cbn. by rewrite <- IH. Qed.

(** X24. Along every serial history of money-movement requests whose
    amounts are sent as numbers, and in which every store call issued after
    a failed one succeeds, every account ends with its initial balance plus
    the signed amounts of the completed movements that the history recorded
    against it. *)
Theorem ledger_invariant_on_number_amounts
    (h : list (Untyped.request * env)) (w : world) (A : nat) (initial : profile_cols) :
  forallb (λ re : Untyped.request * env, Untyped.sends_number re.1) h = true →
  forallb (λ rt : (response + transaction) * list event, benign rt.2)
    (Untyped.run h w).1 = true →
  profiles (store w) !! A = Some initial →
  ∃ c : profile_cols,
    profiles (store (Untyped.run h w).2) !! A = Some c ∧
    balance c = balance initial
                + (ledger A (transactions (store (Untyped.run h w).2))
                   - ledger A (transactions (store w))).
Proof.
  intros Hn Hb HA. rewrite (run_agrees h w Hn) in *. cbn [fst snd] in *.
  rewrite benign_without_balance in Hb.
  set (h' := (λ re : Untyped.request * env, (typed_request re.1, re.2)) <$> h) in *.
  set (opening := λ k, default 0 (balance <$> profiles (store w) !! k)
                        - ledger k (transactions (store w))).
  destruct (run_preserves opening h' w (typed_requests_move_money h) Hb) as [Hc Hd].
  assert (consistent opening (store w)) as H0.
  { intros k c Hk. unfold opening. rewrite Hk. cbn. lia. }
  specialize (Hc H0).
  assert (is_Some (profiles (store (run h' w).2) !! A)) as [c Hlook].
  { apply elem_of_dom. rewrite Hd. apply elem_of_dom. eauto. }
  exists c. split; [done|].
  rewrite (Hc A c Hlook). unfold opening. rewrite HA. cbn. lia.
Qed.

Lemma ledger_invariant_on_number_amounts_witness :
  ∃ c : profile_cols,
    profiles (store (Untyped.run afternoon_numbers (world_of bank afternoon_faults)).2)
      !! 1%nat = Some c ∧
    balance c
    = units 500
      + (ledger 1 (transactions
                     (store (Untyped.run afternoon_numbers
                               (world_of bank afternoon_faults)).2))
         - ledger 1 []).
Proof.
  apply (ledger_invariant_on_number_amounts afternoon_numbers
           (world_of bank afternoon_faults) 1
           (customer "xavier" "RS0000000001" (units 500) true));
    vm_compute; reflexivity.
Defined.

(** ** What a movement of a number does when it completes *)

Lemma not_rejected (r : response) (t : transaction) :
  without_balance r = inr t → rejected r = false.
Proof. by destruct r. Qed.

(** X5. When the amount of [createTransaction] is sent as a number, the
    validator accepts the inputs and every store call of the run succeeds,
    the handler answers with the inserted movement: the movement is
    appended to the ledger with the fields of the request, a generated
    reference and status completed, and the balance kept for the caller is
    the balance that was loaded plus the amount for a credit, minus the
    amount for a debit. *)
Theorem createTransaction_completes_on_numbers
    (user : profile) (b : Untyped.body) (e : env) (w : world) (a : Z) :
  Untyped.u_amount b = Untyped.number a →
  validator (is_active user) (Untyped.u_type b) a
    (default "transfer" (Untyped.u_transaction_type b))
    (loaded_balance w (pid user)) = None →
  forallb ok (trace (Untyped.createTransaction user b e w)) = true →
  ∃ (type : string) (current : Z),
    Untyped.u_type b = Some type ∧ loaded_balance w (pid user) = Some current ∧
    let t := {| tid := next_tid (transactions (store w));
                tcols := {| user_id := pid user; type := type; amount := a;
                            description := Untyped.u_description b;
                            to_account_number := Untyped.u_to_account_number b;
                            transaction_type :=
                              Some (default "transfer" (Untyped.u_transaction_type b));
                            reference :=
                              Some (generateReference
                                      (default "transfer" (Untyped.u_transaction_type b))
                                      (now e) (random36 e));
                            status := "completed" |} |} in
    answer (Untyped.createTransaction user b e w) = inr t ∧
    transactions (final (Untyped.createTransaction user b e w))
      = transactions (store w) ++ [t] ∧
    balance <$> profiles (final (Untyped.createTransaction user b e w)) !! pid user
      = Some (calculateNewBalance current a type).
Proof.
  intros Ha Hv. rewrite (createTransaction_agrees user b e w a Ha).
  unfold answer at 1, final, trace at 1. cbn [fst snd]. intros Hok.
  destruct b as [ty am de to tt]. cbn [Untyped.u_amount] in Ha. subst am.
  cbn [Untyped.u_type Untyped.u_description Untyped.u_to_account_number
       Untyped.u_transaction_type] in *.
  destruct (typed_createTransaction_completes user
              (typed_body (Untyped.Build_body ty (Untyped.number a) de to tt)) e w Hv Hok)
    as (type & current & Hty & Hcur & Hans & Hled & Hbal).
  exists type, current. cbn in Hty, Hans, Hled, Hbal |- *.
  rewrite Hans. by repeat split.
Qed.

Lemma createTransaction_completes_on_numbers_witness :
  let run :=
    Untyped.createTransaction xavier
      (as_number (movement "debit" (units 120) "payment")) noon (world_of bank []) in
  ∃ (type : string) (current : Z),
    Some "debit" = Some type ∧ Some (units 500) = Some current ∧
    let t := {| tid := 1;
                tcols := {| user_id := 1; type := type; amount := units 120;
                            description := Some "cash";
                            to_account_number := None;
                            transaction_type := Some "payment";
                            reference := Some "PAY-LOYW3V28-4FZYO8";
                            status := "completed" |} |} in
    answer run = inr t ∧
    transactions (final run) = [] ++ [t] ∧
    balance <$> profiles (final run) !! 1%nat
      = Some (calculateNewBalance current (units 120) type).
Proof.
  apply (createTransaction_completes_on_numbers xavier
           (as_number (movement "debit" (units 120) "payment")) noon
           (world_of bank []) (units 120)); vm_compute; reflexivity.
Defined.

(** X7. Whenever the account-route [transfer] of an amount sent as a number
    is not refused, the amount is positive and at most the sender's
    balance, the recipient is another, active account holding the given
    account number, and afterwards the balance kept for the sender is lower
    by exactly the amount and the one kept for the recipient higher by
    exactly the amount, so that the sum of the two is unchanged; the ledger
    has the two legs, and the answer carries the debit leg. *)
Theorem transfer_completes_on_numbers
    (user : profile) (b : Untyped.body) (w : world) (a : Z) (t : transaction) :
  Untyped.u_amount b = Untyped.number a →
  answer (Untyped.transfer user b w) = inr t →
  ∃ (sender recipient : profile_cols) (r : nat),
    profiles (store w) !! pid user = Some sender ∧
    profiles (store w) !! r = Some recipient ∧ r ≠ pid user ∧
    Some (account_number recipient) = Untyped.u_to_account_number b ∧
    is_active recipient = true ∧ 0 < a ≤ balance sender ∧
    final (Untyped.transfer user b w)
      = transferred (store w) (pid user) r sender recipient (typed_body b) ∧
    profiles (final (Untyped.transfer user b w)) !! pid user
      = Some (set_balance (balance sender - a) sender) ∧
    profiles (final (Untyped.transfer user b w)) !! r
      = Some (set_balance (balance recipient + a) recipient) ∧
    (balance sender - a) + (balance recipient + a) = balance sender + balance recipient ∧
    t = {| tid := next_tid (transactions (store w));
           tcols := debit_leg (pid user) (typed_body b) |}.
Proof.
  intros Ha. rewrite (transfer_agrees user b w a Ha).
  unfold answer at 1, final. cbn [fst snd]. intros Hans.
  destruct (typed_transfer_completes user (typed_body b) w (not_rejected _ _ Hans))
    as (sender & recipient & r & H1 & H2 & H3 & H4 & H5 & H6 & H7 & H8 & H9 & H10 & H11).
  exists sender, recipient, r.
  rewrite H11 in Hans. cbn in Hans. injection Hans as <-.
  destruct b as [ty am de to tt]. cbn [Untyped.u_amount] in Ha. subst am.
  cbn [typed_body b_amount b_to_account_number Untyped.u_amount Untyped.to_number
       Untyped.u_to_account_number] in *.
  unfold final in *. destruct H6 as [H6 H6']. repeat split; assumption.
Qed.

Lemma transfer_completes_on_numbers_witness :
  let run := Untyped.transfer xavier (as_number (to_yvonne (units 150))) (world_of bank []) in
  ∃ (sender recipient : profile_cols) (r : nat),
    profiles bank !! 1%nat = Some sender ∧
    profiles bank !! r = Some recipient ∧ r ≠ 1%nat ∧
    Some (account_number recipient) = Some "RS0000000002" ∧
    is_active recipient = true ∧ 0 < units 150 ≤ balance sender ∧
    final run = transferred bank 1 r sender recipient (to_yvonne (units 150)) ∧
    profiles (final run) !! 1%nat = Some (set_balance (balance sender - units 150) sender) ∧
    profiles (final run) !! r = Some (set_balance (balance recipient + units 150) recipient) ∧
    (balance sender - units 150) + (balance recipient + units 150)
      = balance sender + balance recipient ∧
    {| tid := 1; tcols := debit_leg 1 (to_yvonne (units 150)) |}
      = {| tid := 1; tcols := debit_leg 1 (to_yvonne (units 150)) |}.
Proof.
  apply (transfer_completes_on_numbers xavier (as_number (to_yvonne (units 150)))
           (world_of bank []) (units 150)
           {| tid := 1; tcols := debit_leg 1 (to_yvonne (units 150)) |});
    vm_compute; reflexivity.
Defined.

(** ** Reading the balance back *)

(** X11. After a completed [createTransaction] of an amount sent as a
    number, [getBalance] returns to the same user the balance held before
    plus the amount for a credit, minus the amount for a debit; after a
    completed account-route [transfer] it returns to the sender the balance
    held before minus the amount, as a number.  Both suppose that the read
    reaches the store. *)
Theorem kept_balance_is_read_back
    (user : profile) (b : Untyped.body) (e : env) (w : world) (t : transaction)
    (held : profile_cols) :
  profiles (store w) !! pid user = Some held →
  (∀ a : Z,
     Untyped.u_amount b = Untyped.number a →
     answer (Untyped.createTransaction user b e w) = inr t →
     hd Done (faults (Untyped.createTransaction user b e w).1.2) = Done →
     (getBalance user (Untyped.createTransaction user b e w).1.2).1
       = Json {| j_balance := calculateNewBalance (balance held) a (type t);
                 j_account_number := account_number held |}) ∧
  (answer (Untyped.transfer user b w) = inr t →
   hd Done (faults (Untyped.transfer user b w).1.2) = Done →
   (getBalance user (Untyped.transfer user b w).1.2).1
     = Json {| j_balance := balance held - Untyped.to_number (Untyped.u_amount b);
               j_account_number := account_number held |}).
Proof.
  intros Hheld. split.
  - intros a Ha. revert Hheld. start_run. cbn [store]. intros Hrun Hheld. revert Hrun.
    unfold Untyped.createTransaction. rewrite Ha.
    rewrite ?stored_calculateNewBalance.
    run_handler; leaf; cbn [store faults]; intros Hans; try discriminate Hans;
      injection Hans as <-; intros Hf.
    all: unfold getBalance, read, next_fault; cbn [store faults profiles alter_profile];
      rewrite Hf, lookup_alter_eq, Hheld, ?stored_calculateNewBalance; reflexivity.
  - revert Hheld. start_run. cbn [store]. intros Hrun Hheld. revert Hrun.
    unfold Untyped.transfer, Untyped.minus.
    run_handler; leaf; cbn [store faults]; intros Hans; try discriminate Hans;
      injection Hans as <-; intros Hf.
    all: unfold getBalance, read, next_fault; cbn [store faults profiles alter_profile];
      rewrite Hf;
      match goal with H : (_ =? _)%nat = false |- _ => apply Nat.eqb_neq in H end;
      rewrite lookup_alter_ne, lookup_alter_eq, Hheld by done;
      reflexivity.
Qed.

Lemma kept_balance_is_read_back_witness :
  (getBalance xavier
     (Untyped.transfer xavier (as_number (to_yvonne (units 150))) (world_of bank [])).1.2).1
  = Json {| j_balance := units 500 - units 150; j_account_number := "RS0000000001" |}.
Proof.
  apply (kept_balance_is_read_back xavier (as_number (to_yvonne (units 150))) noon
           (world_of bank []) {| tid := 1; tcols := debit_leg 1 (to_yvonne (units 150)) |}
           (customer "xavier" "RS0000000001" (units 500) true));
    vm_compute; reflexivity.
Defined.

(** ** Statistics and balances *)

Lemma whole_numbers_are_numbers (h : list (Untyped.request * env)) :
  forallb (λ re : Untyped.request * env, Untyped.sends_whole_number re.1) h = true →
  forallb (λ re : Untyped.request * env, Untyped.sends_number re.1) h = true.
Proof.
  induction h as [|[r e] h IH]; [done|]. cbn [forallb fst].
  rewrite !andb_true_iff. intros [Hr Hh]. split; [|by apply IH].
  revert Hr. unfold Untyped.sends_whole_number, Untyped.sends_number.
  by destruct (Untyped.u_amount _).
Qed.

(** X13. After a serial history of money-movement requests that starts from
    an empty ledger, whose amounts are sent as whole numbers (the sums of
    the statistics are then exact) and in which every call issued after a
    failed one succeeds, the [net_flow] that [getTransactionStats] reports
    to a user is the difference between the balance kept for that user and
    the balance before the history. *)
Theorem net_flow_explains_the_balance
    (h : list (Untyped.request * env)) (w : world) (user : profile)
    (initial : profile_cols) (s : stats_json) :
  forallb (λ re : Untyped.request * env, Untyped.sends_whole_number re.1) h = true →
  forallb (λ rt : (response + transaction) * list event, benign rt.2)
    (Untyped.run h w).1 = true →
  transactions (store w) = [] →
  profiles (store w) !! pid user = Some initial →
  (getTransactionStats user (Untyped.run h w).2).1 = Json s →
  ∃ c : profile_cols,
    profiles (store (Untyped.run h w).2) !! pid user = Some c ∧
    balance c = balance initial + net_flow s.
Proof.
  intros Hn%whole_numbers_are_numbers Hb Hempty Hu.
  rewrite (run_agrees h w Hn) in *. cbn [fst snd] in *.
  rewrite benign_without_balance in Hb.
  set (h' := (λ re : Untyped.request * env, (typed_request re.1, re.2)) <$> h) in *.
  intros Hs.
  set (opening := λ k, default 0 (balance <$> profiles (store w) !! k)).
  destruct (run_preserves opening h' w (typed_requests_move_money h) Hb) as [Hc Hd].
  assert (consistent opening (store w)) as H0.
  { intros k c Hk. unfold opening. rewrite Hk, Hempty. cbn. lia. }
  specialize (Hc H0).
  assert (is_Some (profiles (store (run h' w).2) !! pid user)) as [c Hlook].
  { apply elem_of_dom. rewrite Hd. apply elem_of_dom. eauto. }
  exists c. split; [done|].
  rewrite (Hc _ c Hlook). unfold opening. rewrite Hu. cbn [fmap option_fmap option_map default].
  f_equal. revert Hs. unfold getTransactionStats, read, next_fault.
  destruct (hd Done (faults (run h' w).2)); cbn [fst snd store]; [|discriminate].
  intros [= <-]. cbn [net_flow]. symmetry.
  apply (net_flow_is_ledger (pid user)).
Qed.

Lemma net_flow_explains_the_balance_witness :
  ∃ c : profile_cols,
    profiles (store (Untyped.run afternoon_numbers (world_of bank [])).2) !! pid xavier
      = Some c ∧
    balance c = units 500 + - units 100.
Proof.
  apply (net_flow_explains_the_balance afternoon_numbers (world_of bank []) xavier
           (customer "xavier" "RS0000000001" (units 500) true) afternoon_stats);
    vm_compute; reflexivity.
Defined.

(** ** Who can activate an account *)

(** C10, on the code.  Someone signs up: the new account 4 holds 100000.00
    and is inactive, and its first transfer is refused with
    ACCOUNT_INACTIVE.  With the token of the signup and no admin token they
    then call [PATCH /auth/activate/4]: the route checks the token only, the
    account becomes active, and the same transfer now completes, moving
    150.00 out of the new account.  The admin router, which holds the other
    activation, refuses a request without the admin token and leaves the
    flag as it was, and activates the account when the token is given. *)
Theorem account_activates_itself :
  let story := run newcomer (world_of bank []) in
  let refused := handle (POST_admin_activate false 3 None) noon (world_of bank []) in
  let granted := handle (POST_admin_activate true 3 None) noon (world_of bank []) in
  (∃ (account active : profile) (leg : transaction),
     fst <$> story.1
       = [ SignedUp account;
           Rejected 403 "Account is not active. Please wait for activation."
             (Some "ACCOUNT_INACTIVE");
           AccountActivated active;
           TransferCompleted leg (units 100000 - units 150) ] ∧
     (pid account, balance account, is_active account) = (4%nat, units 100000, false) ∧
     (pid active, is_active active) = (4%nat, true) ∧
     (user_id leg, type leg, amount leg) = (4%nat, "debit", units 150) ∧
     forallb (λ re : request * env, negb (by_admin re.1)) newcomer = true ∧
     (λ c : profile_cols, (balance c, is_active c)) <$> profiles (store story.2) !! 4%nat
       = Some (units 100000 - units 150, true) ∧
     balance <$> profiles (store story.2) !! 2%nat = Some (units 200 + units 150)) ∧
  answer refused = Rejected 401 "Admin access required" None ∧
  trace refused = [] ∧
  is_active <$> profiles (final refused) !! 3%nat = Some false ∧
  is_active <$> profiles (final granted) !! 3%nat = Some true.
Proof.
  vm_compute. split; [|by repeat split].
  eexists _, _, _. repeat split; reflexivity.
Qed.

(** X23. A successful signup leaves an account of 100000.00 that cannot
    move money: the next request, when it is a money-movement request made
    with the token of the new account, is refused without any write, with
    ACCOUNT_INACTIVE when the account is read. *)
Theorem new_account_moves_no_money
    (b : signup_body) (e e' : env) (w : world) (u : profile) (r : request) :
  answer (signup b e w) = SignedUp u →
  money_movement r = true →
  caller r = Some (Token (pid u)) →
  balance u = units 100000 ∧
  rejected (answer (handle r e' (signup b e w).1.2)) = true ∧
  final (handle r e' (signup b e w).1.2) = final (signup b e w) ∧
  writes_only (trace (handle r e' (signup b e w).1.2)) = [] ∧
  (hd Done (faults (signup b e w).1.2) = Done →
   code_of (answer (handle r e' (signup b e w).1.2)) = Some "ACCOUNT_INACTIVE").
Proof.
  intros Hs Hm Hc.
  destruct (signup_creates_inactive b e w u Hs) as (_ & Hnew & Hbal & Hact).
  unfold final in Hnew.
  destruct (inactive_caller_is_rejected r e' _ (pid u) _ Hm Hc Hnew Hact)
    as (H1 & H2 & H3 & H4).
  repeat split; assumption.
Qed.

Lemma new_account_moves_no_money_witness :
  balance {| pid := 4;
             pcols := {| name := "walt"; email := "walt@example.com";
                         password_hash := "$2a$12$";
                         account_number := generateAccountNumber (random10 noon);
                         balance := units 100000; is_active := false |} |}
    = units 100000 ∧
  rejected
    (answer (handle (POST_accounts_transfer (Token 4) (to_yvonne (units 150))) a_moment_later
               (signup walt noon (world_of bank [])).1.2)) = true ∧
  final (handle (POST_accounts_transfer (Token 4) (to_yvonne (units 150))) a_moment_later
           (signup walt noon (world_of bank [])).1.2)
    = final (signup walt noon (world_of bank [])) ∧
  writes_only
    (trace (handle (POST_accounts_transfer (Token 4) (to_yvonne (units 150))) a_moment_later
              (signup walt noon (world_of bank [])).1.2)) = [] ∧
  (hd Done (faults (signup walt noon (world_of bank [])).1.2) = Done →
   code_of
     (answer (handle (POST_accounts_transfer (Token 4) (to_yvonne (units 150)))
                a_moment_later (signup walt noon (world_of bank [])).1.2))
   = Some "ACCOUNT_INACTIVE").
Proof.
  apply (new_account_moves_no_money walt noon a_moment_later (world_of bank [])
           {| pid := 4;
              pcols := {| name := "walt"; email := "walt@example.com";
                          password_hash := "$2a$12$";
                          account_number := generateAccountNumber (random10 noon);
                          balance := units 100000; is_active := false |} |}
           (POST_accounts_transfer (Token 4) (to_yvonne (units 150))));
    vm_compute; reflexivity.
Defined.
